(** * Analytics aggregation and theme-status merge of the 404-redirect admin app

    A shallow embedding of the two Remix loaders
    - [app/routes/app.analytics.tsx]  (window resolution, five Prisma queries,
      derived metrics), and
    - [app/routes/app._index.tsx]     (merge of platform themes with the stored
      activation flags),
    together with the part of the ECMAScript [Date] object the first one
    relies on. *)

From Stdlib Require Import ZArith Lia Bool List Sorting.Sorted Sorting.Permutation.
From stdpp Require Import gmap strings list fin_maps pretty.

(** ** ECMAScript time values

    A [Date] is its time value: milliseconds since the epoch, here a [Z].
    The definitions follow ECMA-262, section "Date Objects" (Day,
    TimeWithinDay, DaysInYear, DayFromYear, YearFromTime, MonthFromTime,
    DateFromTime, MakeDay, MakeDate, LocalTime, UTC).  Local time is UTC
    shifted by a constant [tza] milliseconds: daylight-saving transitions are
    not modelled, and neither is TimeClip, the instants of interest being
    clock readings far from the +-8.64e15 limits. *)
Module JSDate.
Local Open Scope Z_scope.

Definition msPerDay : Z := 86400000.

Definition Day (t : Z) : Z := t / msPerDay.

Definition TimeWithinDay (t : Z) : Z := t mod msPerDay.

Definition DaysInYear (y : Z) : Z :=
  if negb (y mod 4 =? 0) then 365
  else if negb (y mod 100 =? 0) then 366
  else if negb (y mod 400 =? 0) then 365
  else 366.

Definition DayFromYear (y : Z) : Z :=
  365 * (y - 1970) + (y - 1969) / 4 - (y - 1901) / 100 + (y - 1601) / 400.

(** The largest [y] with [DayFromYear y <= d]: an estimate from the mean
    length of a Gregorian year, corrected by at most one year. *)
Definition YearFromDay (d : Z) : Z :=
  let y := 1970 + (400 * d) / 146097 in
  if d <? DayFromYear y then y - 1
  else if DayFromYear (y + 1) <=? d then y + 1
  else y.

Definition YearFromTime (t : Z) : Z := YearFromDay (Day t).

Definition InLeapYearOf (y : Z) : Z := if DaysInYear y =? 366 then 1 else 0.

Definition InLeapYear (t : Z) : Z := InLeapYearOf (YearFromTime t).

Definition DayWithinYear (t : Z) : Z := Day t - DayFromYear (YearFromTime t).

(** Number of days before the first of month [m] (0 = January). *)
Definition monthStart (m leap : Z) : Z :=
  if m =? 0 then 0
  else if m =? 1 then 31
  else if m =? 2 then 59 + leap
  else if m =? 3 then 90 + leap
  else if m =? 4 then 120 + leap
  else if m =? 5 then 151 + leap
  else if m =? 6 then 181 + leap
  else if m =? 7 then 212 + leap
  else if m =? 8 then 243 + leap
  else if m =? 9 then 273 + leap
  else if m =? 10 then 304 + leap
  else 334 + leap.

Definition MonthFromTime (t : Z) : Z :=
  let d := DayWithinYear t in
  let leap := InLeapYear t in
  if d <? 31 then 0
  else if d <? 59 + leap then 1
  else if d <? 90 + leap then 2
  else if d <? 120 + leap then 3
  else if d <? 151 + leap then 4
  else if d <? 181 + leap then 5
  else if d <? 212 + leap then 6
  else if d <? 243 + leap then 7
  else if d <? 273 + leap then 8
  else if d <? 304 + leap then 9
  else if d <? 334 + leap then 10
  else 11.

Definition DateFromTime (t : Z) : Z :=
  DayWithinYear t - monthStart (MonthFromTime t) (InLeapYear t) + 1.

(** [MakeDay year month date]: the day number of the first of the month
    obtained by carrying [month] into the year, plus [date - 1]; [date] may
    be zero, negative or past the end of the month. *)
Definition MakeDay (year month date : Z) : Z :=
  let ym := year + month / 12 in
  let mn := month mod 12 in
  DayFromYear ym + monthStart mn (InLeapYearOf ym) + date - 1.

Definition MakeDate (day time : Z) : Z := day * msPerDay + time.

Section Zone.
Variable tza : Z.

Definition LocalTime (t : Z) : Z := t + tza.
Definition UTC (t : Z) : Z := t - tza.

Definition getDate (this : Z) : Z := DateFromTime (LocalTime this).
Definition getMonth (this : Z) : Z := MonthFromTime (LocalTime this).

(** [this.setDate(date)]: the new time value of [this]. *)
Definition setDate (this date : Z) : Z :=
  let t := LocalTime this in
  UTC (MakeDate (MakeDay (YearFromTime t) (MonthFromTime t) date) (TimeWithinDay t)).

(** [this.setMonth(month)]: the new time value of [this]. *)
Definition setMonth (this month : Z) : Z :=
  let t := LocalTime this in
  UTC (MakeDate (MakeDay (YearFromTime t) month (DateFromTime t)) (TimeWithinDay t)).

End Zone.

(** Length in days of month [m] (0 = January) of year [y]. *)
Definition DaysInMonth (y m : Z) : Z :=
  if m =? 11 then 31
  else monthStart (m + 1) (InLeapYearOf y) - monthStart m (InLeapYearOf y).

(** The calendar month before the one [t] lies in: its year and its index. *)
Definition previousMonth (t : Z) : Z * Z :=
  if MonthFromTime t =? 0 then (YearFromTime t - 1, 11)
  else (YearFromTime t, MonthFromTime t - 1).

Definition daysInPreviousMonth (t : Z) : Z :=
  DaysInMonth (fst (previousMonth t)) (snd (previousMonth t)).

End JSDate.

(** ** The query layer

    The two Prisma operations the loaders use on a table, over a list of
    rows: [groupBy] with [by], [where], [_count: true], [orderBy] on the
    grouping key and an optional [take], and [count] with [where].  Key
    equality [eqb] and the collation order [leb] of the key's column are
    parameters. *)
Module Prisma.

Inductive SortOrder := asc | desc.

Record Group (K : Type) := mkGroup { key : K; _count : nat }.
Arguments mkGroup {K} _ _.
Arguments key {K} _.
Arguments _count {K} _.

Section GroupBy.
Context {R K : Type}.
Variable eqb : K -> K -> bool.
Variable leb : K -> K -> bool.

(** One more row with key [k]: its group's count goes up, or a new group of
    one row is added. *)
Fixpoint bump (k : K) (gs : list (Group K)) : list (Group K) :=
  match gs with
  | [] => [mkGroup k 1]
  | g :: gs' =>
      if eqb k (key g) then mkGroup (key g) (S (_count g)) :: gs'
      else g :: bump k gs'
  end.

Definition grouped (ks : list K) : list (Group K) :=
  fold_left (fun gs k => bump k gs) ks [].

(** [before o a b]: key [a] may come before key [b] under ORDER BY [o]. *)
Definition before (o : SortOrder) (a b : K) : bool :=
  match o with asc => leb a b | desc => leb b a end.

Fixpoint place (o : SortOrder) (g : Group K) (gs : list (Group K)) : list (Group K) :=
  match gs with
  | [] => [g]
  | h :: gs' => if before o (key g) (key h) then g :: h :: gs' else h :: place o g gs'
  end.

Fixpoint ordered (o : SortOrder) (gs : list (Group K)) : list (Group K) :=
  match gs with
  | [] => []
  | g :: gs' => place o g (ordered o gs')
  end.

Definition groupBy (by_ : R -> K) (where_ : R -> bool) (orderBy : SortOrder)
    (take : option nat) (rows : list R) : list (Group K) :=
  let gs := ordered orderBy (grouped (map by_ (List.filter where_ rows))) in
  match take with
  | Some n => firstn n gs
  | None => gs
  end.

Definition count (where_ : R -> bool) (rows : list R) : nat :=
  length (List.filter where_ rows).

Definition total (gs : list (Group K)) : nat := sum_list (map _count gs).

Definition occurrences (k : K) (ks : list K) : nat := length (List.filter (eqb k) ks).

(** The invariant of the grouping loop: distinct keys, one per key seen, and
    each count is the number of rows seen with that key. *)
Definition groups_of (ks : list K) (gs : list (Group K)) : Prop :=
  List.NoDup (map key gs)
  /\ (forall g, In g gs -> _count g = occurrences (key g) ks /\ 1 <= _count g)
  /\ (forall k, In k ks -> In k (map key gs)).

(** [comes_before o a b]: group [a] is placed before group [b], their keys
    being different. *)
Definition comes_before (o : SortOrder) (a b : Group K) : Prop :=
  before o (key a) (key b) = true /\ key a <> key b.

End GroupBy.

(** Collation of a text column: bytewise comparison. *)
Definition text_eqb : string -> string -> bool := String.eqb.
Definition text_leb : string -> string -> bool := String.leb.

(** A nullable text column.  GROUP BY puts all NULLs in one group; ORDER BY
    places NULL after every value ([nullsLargest], PostgreSQL) or before
    every value (SQLite, MySQL). *)
Definition nullable_eqb (a b : option string) : bool :=
  match a, b with
  | None, None => true
  | Some x, Some y => String.eqb x y
  | _, _ => false
  end.

Definition nullable_leb (nullsLargest : bool) (a b : option string) : bool :=
  match a, b with
  | None, None => true
  | None, Some _ => negb nullsLargest
  | Some _, None => nullsLargest
  | Some x, Some y => String.leb x y
  end.

End Prisma.

(** ** The tables *)

(** Modelled from the spec: the Prisma schema is not part of the sources; the
    row types are the spec's NotFoundErrorEvent, RedirectRule and
    ThemeActivationStatus, with the column names the loaders use. *)
Module NotFoundError.
Record t := mk {
  shopDomain : string;
  path : string;
  referer : option string;
  timestamp : Z;
  redirected : bool
}.
End NotFoundError.

Module Redirect.
Record t := mk { shopDomain : string; createdAt : Z }.
End Redirect.

Module ThemeStatus.
Record t := mk { shopDomain : string; themeId : string; isActive : bool }.
End ThemeStatus.

(** ** Promises *)
Module Promise.

Definition Error := string.

(** A settled promise; a rejection carries the instant it happened. *)
Inductive Settled (A : Type) :=
| Fulfilled (v : A)
| Rejected (at_ : nat) (reason : Error).
Arguments Fulfilled {A} _.
Arguments Rejected {A} _ _.

(** The outcome of evaluating an [await]: a value or a thrown error. *)
Inductive Outcome (A : Type) :=
| Returns (v : A)
| Throws (e : Error).
Arguments Returns {A} _.
Arguments Throws {A} _.

Definition await {A} (p : Settled A) : Outcome A :=
  match p with
  | Fulfilled v => Returns v
  | Rejected _ e => Throws e
  end.

(** [Promise.all] of two promises: fulfilled when both are, otherwise
    rejected with the reason of the first one to reject (the one listed first
    when both reject at the same instant). *)
Definition all2 {A B} (p : Settled A) (q : Settled B) : Settled (A * B) :=
  match p, q with
  | Fulfilled a, Fulfilled b => Fulfilled (a, b)
  | Rejected t e, Fulfilled _ => Rejected t e
  | Fulfilled _, Rejected t e => Rejected t e
  | Rejected t1 e1, Rejected t2 e2 =>
      if (t2 <? t1)%nat then Rejected t2 e2 else Rejected t1 e1
  end.

Definition all5 {A B C D E} (p1 : Settled A) (p2 : Settled B) (p3 : Settled C)
    (p4 : Settled D) (p5 : Settled E) : Settled (A * (B * (C * (D * E)))) :=
  all2 p1 (all2 p2 (all2 p3 (all2 p4 p5))).

End Promise.

(** ** The database client *)
Module Client.
Import Promise.

Inductive Query :=
| errorsQuery | topPathsQuery | totalRedirectsQuery | unfixedErrorsQuery
| topReferrersQuery.

(** The [prisma] object: the tables, the position of NULL in the store's
    order, and for each of the five queries of the analytics loader whether it
    fails, when and with which error. *)
Record t := mk {
  notFoundError : list NotFoundError.t;
  redirect : list Redirect.t;
  themeStatus : list ThemeStatus.t;
  nullsLargest : bool;
  failure : Query -> option (nat * Error)
}.

(** Query [q] yielding [v] on the tables, as the promise the client returns. *)
Definition run {A} (prisma : t) (q : Query) (v : A) : Settled A :=
  match failure prisma q with
  | Some (at_, e) => Rejected at_ e
  | None => Fulfilled v
  end.

(** The same client with every query succeeding. *)
Definition healthy (prisma : t) : t :=
  mk (notFoundError prisma) (redirect prisma) (themeStatus prisma)
     (nullsLargest prisma) (fun _ => None).

End Client.

(** ** [app/routes/app.analytics.tsx] *)
Module Analytics.
Import JSDate Prisma Promise.

(** [Math.round(n / d)] for counts [n] and a divisor [d] among 1, 7 and 30:
    the quotient rounded to the nearest integer, halves upwards.  The double
    division agrees with this as long as [n] stays below 2^45. *)
Definition Math_round_div (n d : nat) : nat := (2 * n + d) / (2 * d).

(** [(url.searchParams.get("range") as TimeRange) || "week"]: a missing or
    empty parameter becomes ["week"], any other string is kept. *)
Definition rangeOf (param : option string) : string :=
  match param with
  | None => "week"
  | Some s => if String.eqb s "" then "week" else s
  end.

(** The [switch (range)] on the start date; [now] and [start0] are the two
    clock readings [new Date()]. *)
Definition startDateOf (tza : Z) (range : string) (now start0 : Z) : Z :=
  if String.eqb range "day" then setDate tza start0 (getDate tza now - 1)
  else if String.eqb range "month" then setMonth tza start0 (getMonth tza now - 1)
  else setDate tza start0 (getDate tza now - 7).

Record LoaderData := mkLoaderData {
  errors : list (Group Z);
  topPaths : list (Group string);
  range : string;
  totalRedirects : nat;
  totalErrors : nat;
  avgDaily : nat;
  unfixedErrors : nat;
  topReferrers : list (Group (option string))
}.

Section Queries.
Variable prisma : Client.t.
Variable shop : string.
Variable startDate now : Z.

(** 404 errors over time *)
Definition errorsOverTime : list (Group Z) :=
  groupBy Z.eqb Z.leb NotFoundError.timestamp
    (fun row => String.eqb (NotFoundError.shopDomain row) shop
                && ((startDate <=? NotFoundError.timestamp row)%Z
                    && (NotFoundError.timestamp row <=? now)%Z))
    asc None (Client.notFoundError prisma).

(** Top paths *)
Definition topPathsInPeriod : list (Group string) :=
  groupBy text_eqb text_leb NotFoundError.path
    (fun row => String.eqb (NotFoundError.shopDomain row) shop
                && (startDate <=? NotFoundError.timestamp row)%Z)
    desc (Some 5) (Client.notFoundError prisma).

(** Total redirects in period *)
Definition totalRedirectsInPeriod : nat :=
  count (fun row => String.eqb (Redirect.shopDomain row) shop
                    && (startDate <=? Redirect.createdAt row)%Z)
    (Client.redirect prisma).

(** Unfixed errors in period *)
Definition unfixedErrorsInPeriod : nat :=
  count (fun row => String.eqb (NotFoundError.shopDomain row) shop
                    && (Bool.eqb (NotFoundError.redirected row) false
                        && (startDate <=? NotFoundError.timestamp row)%Z))
    (Client.notFoundError prisma).

(** Top referrers in period *)
Definition topReferrersInPeriod : list (Group (option string)) :=
  groupBy nullable_eqb (nullable_leb (Client.nullsLargest prisma))
    NotFoundError.referer
    (fun row => String.eqb (NotFoundError.shopDomain row) shop
                && (startDate <=? NotFoundError.timestamp row)%Z)
    desc (Some 3) (Client.notFoundError prisma).

End Queries.

(** The loader, for the authenticated [shop], the [range] search parameter
    and the two clock readings. *)
Definition loader (tza : Z) (prisma : Client.t) (shop : string)
    (rangeParam : option string) (now start0 : Z) : Outcome LoaderData :=
  let range := rangeOf rangeParam in
  let startDate := startDateOf tza range now start0 in
  match
    await (all5
      (Client.run prisma Client.errorsQuery
         (errorsOverTime prisma shop startDate now))
      (Client.run prisma Client.topPathsQuery
         (topPathsInPeriod prisma shop startDate))
      (Client.run prisma Client.totalRedirectsQuery
         (totalRedirectsInPeriod prisma shop startDate))
      (Client.run prisma Client.unfixedErrorsQuery
         (unfixedErrorsInPeriod prisma shop startDate))
      (Client.run prisma Client.topReferrersQuery
         (topReferrersInPeriod prisma shop startDate)))
  with
  | Throws e => Throws e
  | Returns (errors, (topPaths, (totalRedirects, (unfixedErrors, topReferrers)))) =>
      let totalErrors := fold_left (fun sum error => sum + _count error) errors 0 in
      let avgDaily :=
        Math_round_div totalErrors
          (if String.eqb range "day" then 1
           else if String.eqb range "week" then 7 else 30) in
      Returns (mkLoaderData errors topPaths range totalRedirects totalErrors
                 avgDaily unfixedErrors topReferrers)
  end.

(** *** What the spec calls the window *)

(** An instant lies in the window [[startDate, now]]. *)
Definition inWindow (startDate now t : Z) : bool :=
  ((startDate <=? t) && (t <=? now))%Z.

(** The 404 events of [shop] in the window. *)
Definition eventsInWindow (prisma : Client.t) (shop : string) (startDate now : Z)
  : list NotFoundError.t :=
  List.filter
    (fun row => String.eqb (NotFoundError.shopDomain row) shop
                && inWindow startDate now (NotFoundError.timestamp row))
    (Client.notFoundError prisma).

(** Length of the resolved window, in whole days. *)
Definition windowDays (startDate now : Z) : Z := ((now - startDate) / msPerDay)%Z.

End Analytics.

(** ** [app/routes/app._index.tsx] *)
Module Index.

(** The values found in a theme object: the strings of the platform's
    answer and the flag the loader adds. *)
Inductive value :=
| Str (s : string)
| Bool (b : bool).

(** [prisma.themeStatus.findMany({ where: { shopDomain } })] *)
Definition findMany (prisma : Client.t) (shop : string) : list ThemeStatus.t :=
  List.filter (fun status => String.eqb (ThemeStatus.shopDomain status) shop)
    (Client.themeStatus prisma).

(** [new Map(themeStatuses.map(status => [status.themeId, status.isActive]))]:
    the entries are set one after the other, a later one replacing an earlier
    one with the same key. *)
Definition statusMap (themeStatuses : list ThemeStatus.t) : gmap string bool :=
  fold_left
    (fun m status => <[ThemeStatus.themeId status := ThemeStatus.isActive status]> m)
    themeStatuses ∅.

(** [statusMap.get(k)] for the value of a property that may be missing: only
    a string can be a key of this map. *)
Definition Map_get (m : gmap string bool) (k : option value) : option bool :=
  match k with
  | Some (Str s) => m !! s
  | _ => None
  end.

(** [{ ...theme, isActive: statusMap.get(theme.id) || false }] *)
Definition withStatus (m : gmap string bool) (theme : gmap string value)
  : gmap string value :=
  <["isActive" := Bool (default false (Map_get m (theme !! "id")))]> theme.

(** [process.env.X || d] *)
Definition envOr (var : option string) (d : string) : string :=
  match var with
  | None => d
  | Some s => if String.eqb s "" then d else s
  end.

Record LoaderData := mkLoaderData {
  shop : string;
  themes : list (gmap string value);
  extensionId : string;
  extensionFileName : string
}.

(** The loader, for the authenticated [shop], the theme [nodes] of the
    platform's answer and the two environment variables. *)
Definition loader (prisma : Client.t) (session_shop : string)
    (nodes : list (gmap string value))
    (EXTENSION_ID EXTENSION_FILE_NAME : option string) : LoaderData :=
  let themeStatuses := findMany prisma session_shop in
  let statusMap := statusMap themeStatuses in
  let themes := map (fun theme => withStatus statusMap theme) nodes in
  mkLoaderData session_shop themes
    (envOr EXTENSION_ID "404-redirect")
    (envOr EXTENSION_FILE_NAME "seo-wizzard-extension").

(** A theme as the platform returns it. *)
Definition node (id name role : string) : gmap string value :=
  <["id" := Str id]> (<["name" := Str name]> (<["role" := Str role]> ∅)).

End Index.

(** ** The page of [app/routes/app.analytics.tsx]

    What the [Analytics] component computes from the loader's data: the data
    of the two charts and the entries of the "Top Sources" card.  Colours and
    the other presentational properties are left out.  The loader's data
    reaches the component through JSON: a timestamp travels as an ISO string
    and [new Date(error.timestamp)] gives back the same time value. *)
Module AnalyticsPage.
Import JSDate Prisma.

Record Dataset := mkDataset { label : string; data : list nat }.

Record ChartData := mkChartData { labels : list string; datasets : list Dataset }.

Section Locale.
(** The user's time zone offset and the locale's way of writing a calendar
    date (year, month from 0, day of the month). *)
Variable tza : Z.
Variable format : Z -> Z -> Z -> string.

(** [new Date(t).toLocaleDateString()] *)
Definition toLocaleDateString (t : Z) : string :=
  let local := LocalTime tza t in
  format (YearFromTime local) (MonthFromTime local) (DateFromTime local).

Definition lineChartData (errors : list (Group Z)) : ChartData :=
  mkChartData
    (map (fun error => toLocaleDateString (key error)) errors)
    [mkDataset "404 Errors" (map (fun error => _count error) errors)].

End Locale.

Definition barChartData (topPaths : list (Group string)) : ChartData :=
  mkChartData
    (map (fun path => key path) topPaths)
    [mkDataset "Error Count" (map (fun path => _count path) topPaths)].

(** [s || d] for a nullable string: [d] replaces null and the empty string. *)
Definition orElse (s : option string) (d : string) : string :=
  match s with
  | None => d
  | Some s => if String.eqb s "" then d else s
  end.

(** One box of the "Top Sources" card: its React key, its text, its count. *)
Record Source := mkSource { sourceKey : string; sourceText : string; hits : nat }.

Definition topSources (topReferrers : list (Group (option string))) : list Source :=
  map (fun ref => mkSource (orElse (key ref) "direct") (orElse (key ref) "Direct")
                    (_count ref))
    topReferrers.

(** The options of the "Time Range" select: label and value. *)
Definition rangeOptions : list (string * string) :=
  [("Last 24 Hours", "day"); ("Last 7 Days", "week"); ("Last 30 Days", "month")].

End AnalyticsPage.

(** ** The page of [app/routes/app._index.tsx]

    What the [Index] component computes from the loader's data: the link to
    the theme editor and, for every theme, the cells of its table row. *)
Module IndexPage.
Import Index.

(** A property of a theme object used as a condition. *)
Definition truthy (v : option value) : bool :=
  match v with
  | Some (Bool b) => b
  | Some (Str s) => negb (String.eqb s "")
  | None => false
  end.

(** A property of a theme object inside a template literal. *)
Definition toString (v : option value) : string :=
  match v with
  | Some (Str s) => s
  | Some (Bool true) => "true"
  | Some (Bool false) => "false"
  | None => "undefined"
  end.

(** A property of a theme object as the child of an element: strings are
    shown, booleans and undefined are not. *)
Definition rendered (v : option value) : string :=
  match v with
  | Some (Str s) => s
  | _ => ""
  end.

(** [v === s] for a property of a theme object and a string. *)
Definition strictEq (v : option value) (s : string) : bool :=
  match v with
  | Some (Str x) => String.eqb x s
  | _ => false
  end.

Section Page.
Variable d : LoaderData.

Definition getThemeEditorUrl (themeId : string) : string :=
  "https://" ++ shop d ++ "/admin/themes/" ++ themeId
  ++ "/editor?context=apps&activateAppId=" ++ extensionId d ++ "/"
  ++ extensionFileName d.

(** What a click does. *)
Inductive Action :=
| window_open (url target : string).

Record Row := mkRow {
  id : option value;
  position : nat;
  badgeTone : string;
  badgeText : string;
  nameText : string;
  buttonTone : string;
  buttonText : string;
  onClick : Action
}.

Definition row (index : nat) (theme : gmap string value) : Row :=
  let isActive := truthy (theme !! "isActive") in
  mkRow (theme !! "id") index
    (if isActive then "success" else "critical")
    (if isActive then "Active" else "Inactive")
    (rendered (theme !! "name") ++ " "
     ++ (if strictEq (theme !! "role") "main" then "(Live)" else ""))
    (if isActive then "critical" else "success")
    (if isActive then "Deactivate" else "Configure")
    (window_open (getThemeEditorUrl (toString (theme !! "id"))) "_blank").

(** The "Your Themes" card: the table, or the hint shown without themes. *)
Inductive ThemesCard :=
| IndexTable (itemCount : nat) (rows : list Row)
| NoThemes (manageThemesUrl : string).

Definition heading : string := "Your Themes (" ++ pretty (length (themes d)) ++ ")".

Definition themesCard : ThemesCard :=
  if (0 <? length (themes d))%nat
  then IndexTable (length (themes d)) (imap row (themes d))
  else NoThemes ("https://" ++ shop d ++ "/admin/themes").

End Page.
End IndexPage.

(** ** Sample data *)
Module Sample.
Import Promise.

Definition shop : string := "demo.myshopify.com".

(** 2024-01-15T12:00:00Z *)
Definition now : Z := 1705320000000.

Definition noFailure : Client.Query -> option (nat * Error) := fun _ => None.

Definition event (path : string) (referer : option string) (timestamp : Z)
    (redirected : bool) : NotFoundError.t :=
  NotFoundError.mk shop path referer timestamp redirected.

(** One 404 and one redirect rule recorded a millisecond after the loader
    read the clock, before its queries ran. *)
Definition lateRows : Client.t :=
  Client.mk [event "/old" None (now + 1) false]
            [Redirect.mk shop (now + 1)] [] false noFailure.

(** Four unfixed 404s in the last two days. *)
Definition fourErrors : Client.t :=
  Client.mk [event "/a" None (now - 1000) false;
             event "/b" None (now - 2000) false;
             event "/a" None (now - 3000) false;
             event "/c" (Some "https://example.org/") (now - 90000000) false]
            [] [] false noFailure.

(** Forty-six 404s at the same instant, an hour ago. *)
Definition fortySix : Client.t :=
  Client.mk (repeat (event "/gone" None (now - 3600000) false) 46)
            [] [] false noFailure.

(** One path hit three times and five paths hit once, all sorting after it. *)
Definition frequentFirst : Client.t :=
  Client.mk [event "/a" None (now - 1) false; event "/a" None (now - 2) false;
             event "/a" None (now - 3) false; event "/b" None (now - 4) false;
             event "/c" None (now - 5) false; event "/d" None (now - 6) false;
             event "/e" None (now - 7) false; event "/f" None (now - 8) false]
            [] [] false noFailure.

(** The same store when the top-paths query cannot reach the database. *)
Definition pathsQueryDown : Client.t :=
  Client.mk (Client.notFoundError fourErrors) [] [] false
    (fun q => match q with
              | Client.topPathsQuery => Some (3, "P1001")
              | _ => None
              end).

(** Two themes, one with a stored flag. *)
Definition themeNodes : list (gmap string Index.value) :=
  [Index.node "gid://shopify/Theme/1" "Dawn" "main";
   Index.node "gid://shopify/Theme/2" "Craft" "unpublished"].

Definition oneStatus : Client.t :=
  Client.mk [] [] [ThemeStatus.mk shop "gid://shopify/Theme/1" true] false noFailure.

End Sample.

(** ** More sample data *)
Module Cases.
Import Promise.

(** Two 404s of the shop on the morning and the afternoon of 2024-01-14, and
    one of another shop. *)
Definition sameDay : Client.t :=
  Client.mk [Sample.event "/a" None (Sample.now - 97200000) false;
             Sample.event "/a" None (Sample.now - 79200000) true;
             NotFoundError.mk "other.myshopify.com" "/z" None (Sample.now - 5000) false]
            [Redirect.mk "other.myshopify.com" (Sample.now - 5000)]
            [ThemeStatus.mk "other.myshopify.com" "gid://shopify/Theme/2" true;
             ThemeStatus.mk Sample.shop "gid://shopify/Theme/1" false;
             ThemeStatus.mk Sample.shop "gid://shopify/Theme/1" true]
            false Sample.noFailure.

(** One 404 of the shop a second before the loader read the clock, and two
    recorded one and two milliseconds after it, before the queries ran. *)
Definition lateAndCurrent : Client.t :=
  Client.mk [Sample.event "/a" None (Sample.now - 1000) false;
             Sample.event "/a" None (Sample.now + 1) false;
             Sample.event "/zz" (Some "https://late.example/") (Sample.now + 2) false]
            [] [] false Sample.noFailure.

(** A calendar date as year-month-day numbers. *)
Definition isoDate (y m d : Z) : string :=
  pretty y ++ "-" ++ pretty (m + 1)%Z ++ "-" ++ pretty d.

End Cases.

(** * Properties *)

(** ** Calendar arithmetic *)
Section CalendarFacts.
Import JSDate.
Local Open Scope Z_scope.

Lemma DaysInYear_cases y : DaysInYear y = 365 \/ DaysInYear y = 366.
Proof.
  unfold DaysInYear.
  repeat match goal with |- context [negb ?b] => destruct b; simpl end; auto.
Qed.

Lemma DayFromYear_succ y : DayFromYear (y + 1) = DayFromYear y + DaysInYear y.
Proof.
  unfold DayFromYear, DaysInYear.
  repeat match goal with
         | |- context [?a =? ?b] => destruct (Z.eqb_spec a b); simpl
         end; Z.div_mod_to_equations; lia.
Qed.

Lemma YearFromDay_spec d :
  DayFromYear (YearFromDay d) <= d < DayFromYear (YearFromDay d + 1).
Proof.
  unfold YearFromDay.
  set (y := 1970 + 400 * d / 146097).
  assert (Hlo : DayFromYear (y - 1) <= d)
    by (unfold DayFromYear, y; Z.div_mod_to_equations; lia).
  assert (Hhi : d < DayFromYear (y + 2))
    by (unfold DayFromYear, y; Z.div_mod_to_equations; lia).
  destruct (Z.ltb_spec d (DayFromYear y)).
  - replace (y - 1 + 1) with y by lia. lia.
  - destruct (Z.leb_spec (DayFromYear (y + 1)) d).
    + replace (y + 1 + 1) with (y + 2) by lia. lia.
    + lia.
Qed.

Lemma DayWithinYear_range t :
  0 <= DayWithinYear t < DaysInYear (YearFromTime t).
Proof.
  unfold DayWithinYear, YearFromTime.
  pose proof (YearFromDay_spec (Day t)) as H.
  rewrite DayFromYear_succ in H. lia.
Qed.

Lemma MonthFromTime_range t : 0 <= MonthFromTime t <= 11.
Proof.
  unfold MonthFromTime.
  repeat match goal with
         | |- context [?a <? ?b] => destruct (Z.ltb_spec a b)
         end; lia.
Qed.

Lemma InLeapYearOf_cases y : InLeapYearOf y = 0 \/ InLeapYearOf y = 1.
Proof. unfold InLeapYearOf. destruct (DaysInYear y =? 366); auto. Qed.

(** The day of the month is between 1 and 31. *)
Lemma DateFromTime_range t : 1 <= DateFromTime t <= 31.
Proof.
  pose proof (DayWithinYear_range t) as Hd.
  unfold DateFromTime, MonthFromTime, monthStart, InLeapYear, InLeapYearOf in *.
  destruct (DaysInYear_cases (YearFromTime t)) as [E | E]; rewrite E in *; simpl;
    repeat match goal with
           | |- context [?a <? ?b] => destruct (Z.ltb_spec a b); simpl
           end; lia.
Qed.

(** Year, month and day of the month determine the day number. *)
Lemma MakeDay_of_fields t :
  MakeDay (YearFromTime t) (MonthFromTime t) (DateFromTime t) = Day t.
Proof.
  pose proof (MonthFromTime_range t) as Hm.
  unfold MakeDay.
  rewrite Z.div_small, Z.mod_small by lia.
  unfold DateFromTime, DayWithinYear, InLeapYear.
  rewrite Z.add_0_r. lia.
Qed.

Lemma MakeDate_of_day t : MakeDate (Day t) (TimeWithinDay t) = t.
Proof.
  unfold MakeDate, Day, TimeWithinDay, msPerDay.
  Z.div_mod_to_equations; lia.
Qed.

Lemma MakeDay_add_date y m d k : MakeDay y m (d + k) = MakeDay y m d + k.
Proof. unfold MakeDay. lia. Qed.

Lemma MakeDate_add_day d k time :
  MakeDate (d + k) time = MakeDate d time + k * msPerDay.
Proof. unfold MakeDate. ring. Qed.

(** Moving the day of the month by [k] moves the instant by [k] days. *)
Lemma setDate_shift tza this k :
  setDate tza this (getDate tza this + k) = this + k * msPerDay.
Proof.
  unfold setDate, getDate.
  rewrite MakeDay_add_date, MakeDay_of_fields, MakeDate_add_day, MakeDate_of_day.
  unfold UTC, LocalTime. ring.
Qed.


Lemma DaysInMonth_range y m : 0 <= m <= 11 -> 28 <= DaysInMonth y m <= 31.
Proof.
  intros Hm. unfold DaysInMonth, monthStart.
  destruct (InLeapYearOf_cases y) as [E | E]; rewrite E;
    assert (Hc : m = 0 \/ m = 1 \/ m = 2 \/ m = 3 \/ m = 4 \/ m = 5 \/ m = 6
                 \/ m = 7 \/ m = 8 \/ m = 9 \/ m = 10 \/ m = 11) by lia;
    repeat (destruct Hc as [-> | Hc]; [simpl; lia |]); subst m; simpl; lia.
Qed.

Lemma daysInPreviousMonth_range t : 28 <= daysInPreviousMonth t <= 31.
Proof.
  pose proof (MonthFromTime_range t) as Hm.
  unfold daysInPreviousMonth, previousMonth.
  destruct (Z.eqb_spec (MonthFromTime t) 0); simpl; apply DaysInMonth_range; lia.
Qed.

Lemma InLeapYearOf_DaysInYear y : DaysInYear y = 365 + InLeapYearOf y.
Proof.
  unfold InLeapYearOf. destruct (DaysInYear_cases y) as [E | E]; rewrite E; reflexivity.
Qed.

(** One month back from month [m] of year [y], for any day of the month [d]:
    the day number drops by the length of the month before. *)
Lemma MakeDay_month_back y m d :
  0 <= m <= 11 ->
  MakeDay y (m - 1) d
  = MakeDay y m d
    - (if m =? 0 then DaysInMonth (y - 1) 11 else DaysInMonth y (m - 1)).
Proof.
  intros Hm. unfold MakeDay.
  destruct (Z.eqb_spec m 0) as [E | E].
  - subst m. change ((0 - 1) / 12) with (-1). change ((0 - 1) mod 12) with 11.
    change (0 / 12) with 0. change (0 mod 12) with 0.
    replace (y + 0) with (y - 1 + 1) by lia.
    rewrite DayFromYear_succ, InLeapYearOf_DaysInYear.
    replace (y + -1) with (y - 1) by lia.
    change (DaysInMonth (y - 1) 11) with 31.
    change (monthStart 11 (InLeapYearOf (y - 1))) with (334 + InLeapYearOf (y - 1)).
    change (monthStart 0 (InLeapYearOf (y - 1 + 1))) with 0.
    lia.
  - rewrite !Z.div_small, !Z.mod_small by lia.
    unfold DaysInMonth.
    destruct (Z.eqb_spec (m - 1) 11); [lia |].
    replace (m - 1 + 1) with m by lia.
    rewrite Z.add_0_r. lia.
Qed.

Lemma MakeDay_previous_month t :
  MakeDay (YearFromTime t) (MonthFromTime t - 1) (DateFromTime t)
  = Day t - daysInPreviousMonth t.
Proof.
  rewrite MakeDay_month_back by apply MonthFromTime_range.
  rewrite MakeDay_of_fields.
  unfold daysInPreviousMonth, previousMonth.
  destruct (MonthFromTime t =? 0); reflexivity.
Qed.

Lemma MakeDate_sub_days d k time :
  MakeDate (d - k) time = MakeDate d time - k * msPerDay.
Proof. unfold MakeDate. ring. Qed.

Lemma setMonth_previous tza this :
  setMonth tza this (getMonth tza this - 1)
  = this - daysInPreviousMonth (LocalTime tza this) * msPerDay.
Proof.
  unfold setMonth, getMonth.
  rewrite MakeDay_previous_month, MakeDate_sub_days, MakeDate_of_day.
  unfold UTC, LocalTime. ring.
Qed.

(** 2024-01-15T12:00:00Z is day 15 of month 0 of year 2024. *)
Example fields_20240115 :
  YearFromTime 1705320000000 = 2024 /\ MonthFromTime 1705320000000 = 0
  /\ DateFromTime 1705320000000 = 15 /\ daysInPreviousMonth 1705320000000 = 31.
Proof. repeat split; vm_compute; reflexivity. Qed.

(** 2023-03-31T00:00:00Z: one month back is February 31st, that is March 3rd. *)
Example setMonth_overflow :
  setMonth 0 1680220800000 (getMonth 0 1680220800000 - 1)
  = 1680220800000 - 28 * msPerDay.
Proof. vm_compute. reflexivity. Qed.

End CalendarFacts.

(** ** Grouping, ordering and truncating *)
Section GroupByFacts.
Import Prisma.
Context {R K : Type}.
Variable eqb : K -> K -> bool.
Variable leb : K -> K -> bool.

Local Abbreviation bump := (Prisma.bump eqb).
Local Abbreviation grouped := (Prisma.grouped eqb).
Local Abbreviation occurrences := (Prisma.occurrences eqb).
Local Abbreviation groups_of := (Prisma.groups_of eqb).
Local Abbreviation before := (Prisma.before leb).
Local Abbreviation place := (Prisma.place leb).
Local Abbreviation ordered := (Prisma.ordered leb).


Hypothesis eqb_eq : forall a b, eqb a b = true <-> a = b.

Lemma eqb_refl a : eqb a a = true.
Proof. apply eqb_eq. reflexivity. Qed.

Lemma eqb_sym a b : eqb a b = eqb b a.
Proof.
  destruct (eqb a b) eqn:E.
  - apply eqb_eq in E. subst. symmetry. apply eqb_refl.
  - destruct (eqb b a) eqn:E'; [| reflexivity].
    apply eqb_eq in E'. subst. rewrite eqb_refl in E. discriminate.
Qed.

Lemma total_bump k gs : total (bump k gs) = S (total gs).
Proof.
  unfold total. induction gs as [| g gs IH]; simpl; [reflexivity |].
  destruct (eqb k (key g)); simpl; [reflexivity |]. rewrite IH. lia.
Qed.

Lemma total_grouped_from ks : forall gs,
  total (fold_left (fun gs k => bump k gs) ks gs) = total gs + length ks.
Proof.
  induction ks as [| k ks IH]; intros gs; simpl; [lia |].
  rewrite IH, total_bump. lia.
Qed.

Lemma total_grouped ks : total (grouped ks) = length ks.
Proof. unfold grouped. rewrite total_grouped_from. reflexivity. Qed.

Lemma keys_bump k gs k' :
  In k' (map key (bump k gs)) <-> k' = k \/ In k' (map key gs).
Proof.
  induction gs as [| g gs IH]; simpl.
  - intuition (subst; auto).
  - destruct (eqb k (key g)) eqn:E; simpl.
    + apply eqb_eq in E. subst. intuition congruence.
    + rewrite IH. intuition congruence.
Qed.

Lemma NoDup_keys_bump k gs : List.NoDup (map key gs) -> List.NoDup (map key (bump k gs)).
Proof.
  induction gs as [| g gs IH]; simpl; intros Hnd.
  - repeat constructor. intros [].
  - inversion Hnd as [| ? ? Hni Hnd']; subst.
    destruct (eqb k (key g)) eqn:E; simpl.
    + constructor; assumption.
    + constructor; [| auto].
      intros Hin. apply keys_bump in Hin. destruct Hin as [Heq | Hin]; [| auto].
      rewrite Heq, eqb_refl in E. discriminate.
Qed.


Lemma occurrences_snoc k ks k' :
  occurrences k (ks ++ [k']) = occurrences k ks + (if eqb k k' then 1 else 0).
Proof.
  unfold occurrences. rewrite List.filter_app, length_app. simpl.
  destruct (eqb k k'); reflexivity.
Qed.

Lemma In_bump k gs g :
  List.NoDup (map key gs) ->
  In g (bump k gs) ->
  (key g = k /\ ((~ In k (map key gs) /\ _count g = 1)
                 \/ exists g0, In g0 gs /\ key g0 = k /\ _count g = S (_count g0)))
  \/ (key g <> k /\ In g gs).
Proof.
  induction gs as [| h gs IH]; simpl; intros Hnd Hin.
  - destruct Hin as [<- | []]. left. simpl. split; [reflexivity |]. left. tauto.
  - inversion Hnd as [| ? ? Hni Hnd']; subst.
    destruct (eqb k (key h)) eqn:E.
    + apply eqb_eq in E. destruct Hin as [<- | Hin]; simpl.
      * left. split; [auto |]. right. exists h. auto.
      * right. split; [| auto]. intros Heq. apply Hni. rewrite <- E, <- Heq.
        apply in_map. assumption.
    + assert (Hne : key h <> k).
      { intros Heq. subst k. rewrite eqb_refl in E. discriminate. }
      destruct Hin as [<- | Hin].
      * right. auto.
      * destruct (IH Hnd' Hin) as [[Hk [[Hni' Hc] | (g0 & Hg0 & Hk0 & Hc)]] | [Hk Hg]].
        -- left. split; [assumption |]. left. split; [| assumption].
           intros [Heq | Hin']; auto.
        -- left. split; [assumption |]. right. exists g0. auto.
        -- right. auto.
Qed.

Lemma groups_of_bump ks gs k :
  groups_of ks gs -> groups_of (ks ++ [k]) (bump k gs).
Proof.
  intros (Hnd & Hc & Hk). split; [| split].
  - apply NoDup_keys_bump. assumption.
  - intros g Hin. rewrite occurrences_snoc.
    destruct (In_bump _ _ _ Hnd Hin)
      as [[Hkey [[Hni Hone] | (g0 & Hg0 & Hk0 & Hs)]] | [Hne Hg]].
    + rewrite Hkey, eqb_refl, Hone. split; [| lia].
      assert (occurrences k ks = 0); [| lia].
      unfold occurrences. destruct (List.filter (eqb k) ks) as [| x l] eqn:F; [reflexivity |].
      assert (Hx : In x (List.filter (eqb k) ks)) by (rewrite F; left; reflexivity).
      apply List.filter_In in Hx. destruct Hx as [Hx Hxe].
      apply eqb_eq in Hxe. subst x. elim Hni. auto.
    + destruct (Hc g0 Hg0) as [Ho _]. rewrite Hkey, eqb_refl, Hs, Ho, Hk0. lia.
    + destruct (Hc g Hg) as [Ho Hp].
      assert (E : eqb (key g) k = false).
      { destruct (eqb (key g) k) eqn:E; [| reflexivity]. apply eqb_eq in E. contradiction. }
      rewrite E. lia.
  - intros k' Hin. apply keys_bump. apply in_app_or in Hin.
    destruct Hin as [Hin | [<- | []]]; auto.
Qed.

Lemma groups_of_fold ks : forall ks0 gs,
  groups_of ks0 gs ->
  groups_of (ks0 ++ ks) (fold_left (fun gs k => bump k gs) ks gs).
Proof.
  induction ks as [| k ks IH]; intros ks0 gs H; simpl.
  - rewrite app_nil_r. assumption.
  - replace (ks0 ++ k :: ks) with ((ks0 ++ [k]) ++ ks)
      by (rewrite <- app_assoc; reflexivity).
    apply IH, groups_of_bump, H.
Qed.

Lemma groups_of_grouped ks : groups_of ks (grouped ks).
Proof.
  apply (groups_of_fold ks [] []). repeat split.
  - constructor.
  - destruct H.
  - destruct H.
  - intros k [].
Qed.

(** Ordering permutes the groups. *)
Lemma place_perm o g gs : Permutation (g :: gs) (place o g gs).
Proof.
  induction gs as [| h gs IH]; simpl; [reflexivity |].
  destruct (before o (key g) (key h)); [reflexivity |].
  rewrite perm_swap. apply perm_skip, IH.
Qed.

Lemma ordered_perm o gs : Permutation gs (ordered o gs).
Proof.
  induction gs as [| g gs IH]; simpl; [reflexivity |].
  rewrite <- place_perm. apply perm_skip, IH.
Qed.

Lemma total_perm (gs gs' : list (Group K)) :
  Permutation gs gs' -> total gs = total gs'.
Proof.
  unfold total. induction 1; simpl; lia.
Qed.

Hypothesis leb_total : forall a b, leb a b = true \/ leb b a = true.
Hypothesis leb_trans : forall a b c, leb a b = true -> leb b c = true -> leb a c = true.

Lemma before_total o a b : before o a b = true \/ before o b a = true.
Proof. destruct o; simpl; apply leb_total. Qed.

Lemma before_trans o a b c :
  before o a b = true -> before o b c = true -> before o a c = true.
Proof. destruct o; simpl; eauto. Qed.

Local Abbreviation weakly o :=
  (fun a b : Group K => before o (key a) (key b) = true).

Lemma place_sorted o g gs :
  StronglySorted (weakly o) gs -> StronglySorted (weakly o) (place o g gs).
Proof.
  induction gs as [| h gs IH]; simpl; intros Hs.
  - repeat constructor.
  - inversion Hs as [| ? ? Hs' Hall]; subst.
    destruct (before o (key g) (key h)) eqn:E.
    + constructor; [assumption |]. constructor; [assumption |].
      eapply List.Forall_impl; [| exact Hall]. simpl. intros a Ha.
      eapply before_trans; eassumption.
    + constructor; [auto |].
      eapply Permutation_Forall; [apply place_perm |].
      constructor; [| assumption].
      destruct (before_total o (key g) (key h)); congruence.
Qed.

Lemma ordered_sorted o gs : StronglySorted (weakly o) (ordered o gs).
Proof.
  induction gs as [| g gs IH]; simpl; [constructor |]. apply place_sorted, IH.
Qed.

(** With distinct keys the order is strict. *)
Lemma sorted_strict o gs :
  List.NoDup (map key gs) ->
  StronglySorted (weakly o) gs -> StronglySorted (comes_before leb o) gs.
Proof.
  induction 2 as [| g gs Hs IH Hall]; [constructor |].
  simpl in H. inversion H as [| ? ? Hni Hnd]; subst.
  constructor; [auto |].
  rewrite List.Forall_forall in *. intros a Ha. split; [auto |].
  intros Heq. apply Hni. rewrite Heq. apply in_map, Ha.
Qed.

Lemma sorted_firstn (P : Group K -> Group K -> Prop) n gs :
  StronglySorted P gs -> StronglySorted P (firstn n gs).
Proof.
  intros Hs. revert n. induction Hs as [| g gs Hs IH Hall]; intros [| n]; simpl;
    try constructor; auto.
  rewrite List.Forall_forall in *. intros a Ha. apply Hall.
  rewrite <- (firstn_skipn n gs). apply in_or_app. auto.
Qed.

(** In a sorted list every kept group comes before every dropped one. *)
Lemma sorted_firstn_skipn (P : Group K -> Group K -> Prop) n gs :
  StronglySorted P gs ->
  forall a b, In a (firstn n gs) -> In b (skipn n gs) -> P a b.
Proof.
  intros Hs. revert n. induction Hs as [| g gs Hs IH Hall]; intros [| n] a b; simpl;
    try tauto.
  intros [<- | Ha] Hb.
  - rewrite List.Forall_forall in Hall. apply Hall.
    rewrite <- (firstn_skipn n gs). apply in_or_app. auto.
  - eapply IH; eassumption.
Qed.

(** *** The result of [groupBy] *)

Local Abbreviation groupBy := (Prisma.groupBy eqb leb).

Lemma occurrences_selected (by_ : R -> K) (where_ : R -> bool) k rows :
  occurrences k (map by_ (List.filter where_ rows))
  = count (fun r => where_ r && eqb k (by_ r)) rows.
Proof.
  unfold Prisma.occurrences, count.
  induction rows as [| r rows IH]; simpl; [reflexivity |].
  destruct (where_ r); simpl; [| assumption].
  destruct (eqb k (by_ r)); simpl; rewrite IH; reflexivity.
Qed.

Lemma groupBy_length (by_ : R -> K) where_ o n rows :
  length (groupBy by_ where_ o (Some n) rows) <= n.
Proof. unfold Prisma.groupBy. apply firstn_le_length. Qed.

Lemma groupBy_incl (by_ : R -> K) where_ o take rows g :
  In g (groupBy by_ where_ o take rows) ->
  In g (grouped (map by_ (List.filter where_ rows))).
Proof.
  unfold Prisma.groupBy. intros Hin.
  eapply Permutation_in; [symmetry; apply (ordered_perm o) |].
  destruct take as [n |]; [| assumption].
  rewrite <- (firstn_skipn n (ordered o _)). apply in_or_app. auto.
Qed.

(** Every group reports the number of selected rows that carry its key, and
    no group is empty. *)
Lemma groupBy_count (by_ : R -> K) where_ o take rows g :
  In g (groupBy by_ where_ o take rows) ->
  _count g = count (fun r => where_ r && eqb (key g) (by_ r)) rows
  /\ 1 <= _count g.
Proof.
  intros Hin. apply groupBy_incl in Hin.
  destruct (groups_of_grouped (map by_ (List.filter where_ rows))) as (_ & Hc & _).
  destruct (Hc g Hin) as [Ho Hp]. rewrite occurrences_selected in Ho. auto.
Qed.

(** Without [take], the counts add up to the number of selected rows. *)
Lemma groupBy_total (by_ : R -> K) where_ o rows :
  total (groupBy by_ where_ o None rows) = count where_ rows.
Proof.
  unfold Prisma.groupBy.
  rewrite <- (total_perm _ _ (ordered_perm o _)), total_grouped.
  unfold count. apply length_map.
Qed.

Lemma NoDup_keys_ordered o ks : List.NoDup (map key (ordered o (grouped ks))).
Proof.
  eapply Permutation_NoDup.
  - apply Permutation_map, ordered_perm.
  - apply groups_of_grouped.
Qed.

(** The groups come in strict key order. *)
Lemma groupBy_sorted (by_ : R -> K) where_ o take rows :
  StronglySorted (comes_before leb o) (groupBy by_ where_ o take rows).
Proof.
  unfold Prisma.groupBy.
  assert (Hs : StronglySorted (comes_before leb o)
                 (ordered o (grouped (map by_ (List.filter where_ rows))))).
  { apply sorted_strict; [apply NoDup_keys_ordered | apply ordered_sorted]. }
  destruct take as [n |]; [apply sorted_firstn |]; assumption.
Qed.

Lemma groupBy_keys_all (by_ : R -> K) where_ o rows r :
  In r rows -> where_ r = true ->
  In (by_ r) (map key (groupBy by_ where_ o None rows)).
Proof.
  intros Hin Hw. unfold Prisma.groupBy.
  eapply Permutation_in; [apply Permutation_map, ordered_perm |].
  apply groups_of_grouped. apply in_map. apply List.filter_In. auto.
Qed.

(** With [take n], the key of a selected row is either kept, or the result is
    full and all its keys come strictly before that key. *)
Lemma groupBy_keys_take (by_ : R -> K) where_ o n rows r :
  In r rows -> where_ r = true ->
  In (by_ r) (map key (groupBy by_ where_ o (Some n) rows))
  \/ (length (groupBy by_ where_ o (Some n) rows) = n
      /\ forall g, In g (groupBy by_ where_ o (Some n) rows) ->
                   before o (key g) (by_ r) = true /\ key g <> by_ r).
Proof.
  intros Hin Hw.
  pose proof (groupBy_keys_all by_ where_ o rows r Hin Hw) as Hk.
  pose proof (groupBy_sorted by_ where_ o None rows) as Hs.
  unfold Prisma.groupBy in *.
  set (G := ordered o (grouped (map by_ (List.filter where_ rows)))) in *.
  rewrite <- (firstn_skipn n G), map_app in Hk.
  apply in_app_or in Hk. destruct Hk as [Hk | Hk]; [left; assumption | right].
  apply in_map_iff in Hk. destruct Hk as (d & Hd & Hdin).
  split.
  - apply firstn_length_le.
    destruct (Nat.le_gt_cases n (length G)) as [Hle | Hgt]; [assumption |].
    rewrite skipn_all2 in Hdin by lia. destruct Hdin.
  - intros g Hg. rewrite <- Hd.
    apply (sorted_firstn_skipn _ n G Hs g d Hg Hdin).
Qed.

End GroupByFacts.

(** ** The orders of the grouping keys *)
Section KeyOrders.
Import Prisma.

Lemma String_compare_le_trans a : forall b c,
  String.compare a b <> Gt -> String.compare b c <> Gt -> String.compare a c <> Gt.
Proof.
  induction a as [| x a IH]; intros [| y b] [| z c]; simpl; try congruence.
  unfold Ascii.compare.
  destruct (N.compare_spec (Ascii.N_of_ascii x) (Ascii.N_of_ascii y)) as [Exy | Lxy | Gxy];
    destruct (N.compare_spec (Ascii.N_of_ascii y) (Ascii.N_of_ascii z)) as [Eyz | Lyz | Gyz];
    destruct (N.compare_spec (Ascii.N_of_ascii x) (Ascii.N_of_ascii z)) as [Exz | Lxz | Gxz];
    try congruence; try lia.
  apply IH.
Qed.

Lemma String_leb_le a b : String.leb a b = true <-> String.compare a b <> Gt.
Proof. unfold String.leb. destruct (String.compare a b); split; congruence. Qed.

Lemma text_leb_trans a b c :
  text_leb a b = true -> text_leb b c = true -> text_leb a c = true.
Proof.
  unfold text_leb. rewrite !String_leb_le. apply String_compare_le_trans.
Qed.

Lemma text_eqb_eq a b : text_eqb a b = true <-> a = b.
Proof. apply String.eqb_eq. Qed.

Lemma nullable_eqb_eq a b : nullable_eqb a b = true <-> a = b.
Proof.
  destruct a as [x |], b as [y |]; simpl; try (split; congruence).
  rewrite String.eqb_eq. split; congruence.
Qed.

Lemma nullable_leb_total nl a b :
  nullable_leb nl a b = true \/ nullable_leb nl b a = true.
Proof.
  destruct a as [x |], b as [y |], nl; simpl; auto. all: apply String.leb_total.
Qed.

Lemma nullable_leb_trans nl a b c :
  nullable_leb nl a b = true -> nullable_leb nl b c = true ->
  nullable_leb nl a c = true.
Proof.
  destruct a as [x |], b as [y |], c as [z |], nl; simpl; try congruence.
  all: apply text_leb_trans.
Qed.

Lemma Z_leb_total a b : (a <=? b)%Z = true \/ (b <=? a)%Z = true.
Proof. lia. Qed.

Lemma Z_leb_trans a b c :
  (a <=? b)%Z = true -> (b <=? c)%Z = true -> (a <=? c)%Z = true.
Proof. lia. Qed.

End KeyOrders.

(** ** The analytics loader *)
Section AnalyticsFacts.
Import JSDate Prisma Promise Analytics.

(** With no failing query the loader returns the composed data. *)
Lemma loader_healthy tza prisma shop rangeParam now start0 :
  let range := rangeOf rangeParam in
  let startDate := startDateOf tza range now start0 in
  let errors := errorsOverTime prisma shop startDate now in
  let totalErrors := fold_left (fun sum error => sum + _count error) errors 0 in
  loader tza (Client.healthy prisma) shop rangeParam now start0
  = Returns
      (mkLoaderData errors (topPathsInPeriod prisma shop startDate) range
         (totalRedirectsInPeriod prisma shop startDate) totalErrors
         (Math_round_div totalErrors
            (if String.eqb range "day" then 1
             else if String.eqb range "week" then 7 else 30))
         (unfixedErrorsInPeriod prisma shop startDate)
         (topReferrersInPeriod prisma shop startDate)).
Proof. reflexivity. Qed.

Lemma reduce_counts {K} (gs : list (Group K)) : forall acc,
  fold_left (fun sum error => sum + _count error) gs acc = acc + total gs.
Proof.
  unfold total. induction gs as [| g gs IH]; intros acc; simpl; [lia |].
  rewrite IH. lia.
Qed.

(** The error series accounts for exactly the events of the shop in the
    window, each once. *)
Lemma errorsOverTime_total prisma shop startDate now :
  total (errorsOverTime prisma shop startDate now)
  = length (eventsInWindow prisma shop startDate now).
Proof.
  unfold errorsOverTime. rewrite groupBy_total by apply Z.eqb_eq. reflexivity.
Qed.

(** The error series has one bucket per instant, in ascending order. *)
Lemma errorsOverTime_ascending prisma shop startDate now :
  StronglySorted (comes_before Z.leb asc)
    (errorsOverTime prisma shop startDate now).
Proof.
  apply groupBy_sorted; [apply Z.eqb_eq | apply Z_leb_total | apply Z_leb_trans].
Qed.

(** (C7) In every snapshot, [totalErrors] is the sum of the counts of the
    buckets of the error series. *)
Theorem totalErrors_sums_error_series tza prisma shop rangeParam now start0 :
  exists d,
    loader tza (Client.healthy prisma) shop rangeParam now start0 = Returns d
    /\ totalErrors d = sum_list (map _count (errors d)).
Proof.
  eexists. split; [apply loader_healthy |].
  simpl. rewrite reduce_counts. reflexivity.
Qed.

(** Unless a row is later than [now], the lower bound alone selects the
    window. *)
Lemma lower_bound_is_window startDate now t :
  (t <= now)%Z -> (startDate <=? t)%Z = inWindow startDate now t.
Proof.
  intros H. unfold inWindow. destruct (Z.leb_spec t now); [| lia].
  rewrite andb_true_r. reflexivity.
Qed.

Lemma count_le_length {A} (p : A -> bool) (l : list A) : count p l <= length l.
Proof. unfold count. apply List.filter_length_le. Qed.

Lemma count_filter {A} (p q : A -> bool) (l : list A) :
  count p (List.filter q l) = count (fun a => q a && p a) l.
Proof.
  unfold count. induction l as [| a l IH]; simpl; [reflexivity |].
  destruct (q a); simpl; [| assumption].
  destruct (p a); simpl; rewrite IH; reflexivity.
Qed.

Lemma count_ext {A} (p q : A -> bool) (l : list A) :
  (forall a, In a l -> p a = q a) -> count p l = count q l.
Proof.
  unfold count. intros H. rewrite (List.filter_ext_in p q l H). reflexivity.
Qed.

(** When the store holds no 404 later than [now], the unfixed errors are
    among the events of the window, so they are at most [totalErrors]. *)
Lemma unfixed_le_total_without_late_rows tza prisma shop rangeParam now start0 :
  (forall row, In row (Client.notFoundError prisma) ->
               (NotFoundError.timestamp row <= now)%Z) ->
  exists d,
    loader tza (Client.healthy prisma) shop rangeParam now start0 = Returns d
    /\ unfixedErrors d <= totalErrors d.
Proof.
  intros Hlate. eexists. split; [apply loader_healthy |].
  simpl. rewrite reduce_counts, errorsOverTime_total. simpl.
  set (startDate := startDateOf tza (rangeOf rangeParam) now start0).
  unfold unfixedErrorsInPeriod, eventsInWindow.
  etransitivity; [| apply (count_le_length
    (fun row => Bool.eqb (NotFoundError.redirected row) false))].
  rewrite count_filter. apply Nat.eq_le_incl, count_ext.
  intros row Hin. rewrite (lower_bound_is_window startDate now) by auto.
  destruct (String.eqb _ shop), (Bool.eqb _ false), (inWindow _ _ _); reflexivity.
Qed.

(** (C4) A 404 recorded after the loader read the clock is counted as unfixed
    but is not part of the error series: [unfixedErrors] is 1 and
    [totalErrors] is 0. *)
Theorem late_row_unfixed_exceeds_total :
  exists d,
    loader 0 Sample.lateRows Sample.shop (Some "week") Sample.now Sample.now
    = Returns d
    /\ unfixedErrors d = 1 /\ totalErrors d = 0
    /\ ~ unfixedErrors d <= totalErrors d.
Proof.
  eexists. split; [vm_compute; reflexivity |]. simpl. repeat split. lia.
Qed.

Lemma groupBy_where_ext {R K} eqb leb (by_ : R -> K) w1 w2 o take rows :
  (forall r, In r rows -> w1 r = w2 r) ->
  groupBy eqb leb by_ w1 o take rows = groupBy eqb leb by_ w2 o take rows.
Proof.
  intros H. unfold groupBy. rewrite (List.filter_ext_in w1 w2 rows H). reflexivity.
Qed.

(** When no row of the store is later than [now], the four queries bounded
    from below only select exactly the rows of the window, as the error
    series does. *)
Lemma queries_share_window_without_late_rows prisma shop startDate now :
  (forall row, In row (Client.notFoundError prisma) ->
               (NotFoundError.timestamp row <= now)%Z) ->
  (forall row, In row (Client.redirect prisma) ->
               (Redirect.createdAt row <= now)%Z) ->
  let inShopWindow row :=
    String.eqb (NotFoundError.shopDomain row) shop
    && inWindow startDate now (NotFoundError.timestamp row) in
  topPathsInPeriod prisma shop startDate
  = groupBy text_eqb text_leb NotFoundError.path inShopWindow desc (Some 5)
      (Client.notFoundError prisma)
  /\ topReferrersInPeriod prisma shop startDate
     = groupBy nullable_eqb (nullable_leb (Client.nullsLargest prisma))
         NotFoundError.referer inShopWindow desc (Some 3)
         (Client.notFoundError prisma)
  /\ unfixedErrorsInPeriod prisma shop startDate
     = count (fun row => Bool.eqb (NotFoundError.redirected row) false)
         (eventsInWindow prisma shop startDate now)
  /\ totalRedirectsInPeriod prisma shop startDate
     = count (fun row => String.eqb (Redirect.shopDomain row) shop
                         && inWindow startDate now (Redirect.createdAt row))
         (Client.redirect prisma).
Proof.
  intros Hev Hred inShopWindow.
  assert (Hsel : forall row, In row (Client.notFoundError prisma) ->
            String.eqb (NotFoundError.shopDomain row) shop
            && (startDate <=? NotFoundError.timestamp row)%Z
            = inShopWindow row).
  { intros row Hin. unfold inShopWindow.
    rewrite (lower_bound_is_window startDate now) by auto. reflexivity. }
  repeat apply conj.
  - apply groupBy_where_ext, Hsel.
  - apply groupBy_where_ext, Hsel.
  - unfold unfixedErrorsInPeriod, eventsInWindow. rewrite count_filter.
    apply count_ext. intros row Hin.
    rewrite (lower_bound_is_window startDate now) by auto.
    destruct (String.eqb _ shop), (Bool.eqb _ false), (inWindow _ _ _); reflexivity.
  - apply count_ext. intros row Hin.
    rewrite (lower_bound_is_window startDate now) by auto. reflexivity.
Qed.

(** (C1) Only the error series applies the upper bound [now]: with a 404 and
    a redirect rule recorded a millisecond after [now], no event lies in the
    window and the series is empty, yet the top paths, the top referrers, the
    redirect count and the unfixed count all include the late row. *)
Theorem late_row_counted_by_four_queries :
  let startDate := startDateOf 0 "week" Sample.now Sample.now in
  eventsInWindow Sample.lateRows Sample.shop startDate Sample.now = []
  /\ exists d,
       loader 0 Sample.lateRows Sample.shop (Some "week") Sample.now Sample.now
       = Returns d
       /\ errors d = []
       /\ topPaths d = [mkGroup "/old" 1]
       /\ topReferrers d = [mkGroup None 1]
       /\ totalRedirects d = 1
       /\ unfixedErrors d = 1.
Proof.
  split; [vm_compute; reflexivity |].
  eexists. split; [vm_compute; reflexivity |]. simpl. repeat split.
Qed.

(** *** The resolved window *)

Local Open Scope Z_scope.

Lemma startDateOf_day tza now :
  startDateOf tza "day" now now = now - 1 * msPerDay.
Proof.
  unfold startDateOf. simpl.
  replace (getDate tza now - 1) with (getDate tza now + -1) by lia.
  rewrite setDate_shift. ring.
Qed.

(** Any range other than ["day"] and ["month"] takes the default branch. *)
Lemma startDateOf_default tza range now :
  range <> "day"%string -> range <> "month"%string ->
  startDateOf tza range now now = now - 7 * msPerDay.
Proof.
  intros Hd Hm. unfold startDateOf.
  apply String.eqb_neq in Hd, Hm. rewrite Hd, Hm.
  replace (getDate tza now - 7) with (getDate tza now + -7) by lia.
  rewrite setDate_shift. ring.
Qed.

Lemma startDateOf_month tza now :
  startDateOf tza "month" now now
  = now - daysInPreviousMonth (LocalTime tza now) * msPerDay.
Proof. unfold startDateOf. simpl. apply setMonth_previous. Qed.

Lemma rangeOf_other s :
  s <> ""%string -> rangeOf (Some s) = s.
Proof.
  intros H. unfold rangeOf. apply String.eqb_neq in H. rewrite H. reflexivity.
Qed.

(** (C3, as stated) On 2024-01-15 the window resolved for ["month"] starts on
    2023-12-15: it is 31 days long, not 30. *)
Lemma month_window_of_mid_January_is_31_days :
  Sample.now - startDateOf 0 (rangeOf (Some "month"%string)) Sample.now Sample.now
  = 31 * msPerDay
  /\ Sample.now - startDateOf 0 (rangeOf (Some "month"%string)) Sample.now Sample.now
     <> 30 * msPerDay.
Proof. split; vm_compute; congruence. Qed.

(** (C3, amended) When both clock readings give the same instant, the
    resolved window is 1 day long for ["day"], 7 days for ["week"], for a
    missing or empty parameter and for any unrecognised value, and for ["month"] as
    long as the calendar month before the current one: between 28 and 31
    days. *)
Theorem resolved_window_length tza now (other : string) :
  other <> ""%string -> other <> "day"%string -> other <> "month"%string ->
  let len param := now - startDateOf tza (rangeOf param) now now in
  len (Some "day"%string) = 1 * msPerDay
  /\ len (Some "week"%string) = 7 * msPerDay
  /\ len None = 7 * msPerDay
  /\ len (Some ""%string) = 7 * msPerDay
  /\ len (Some other) = 7 * msPerDay
  /\ len (Some "month"%string)
     = daysInPreviousMonth (LocalTime tza now) * msPerDay
  /\ 28 <= daysInPreviousMonth (LocalTime tza now) <= 31.
Proof.
  intros He Hd Hm len. unfold len.
  change (rangeOf (Some ""%string)) with "week"%string.
  rewrite (rangeOf_other other He).
  change (rangeOf (Some "day"%string)) with "day"%string.
  change (rangeOf (Some "week"%string)) with "week"%string.
  change (rangeOf (Some "month"%string)) with "month"%string.
  change (rangeOf None) with "week"%string.
  rewrite startDateOf_day, startDateOf_month.
  rewrite !startDateOf_default by congruence.
  repeat split; try ring; apply daysInPreviousMonth_range.
Qed.

Lemma resolved_window_length_quarter :
  ("quarter" <> "" /\ "quarter" <> "day" /\ "quarter" <> "month")%string
  /\
  let len param :=
    Sample.now - startDateOf 0 (rangeOf param) Sample.now Sample.now in
  len (Some "day"%string) = 1 * msPerDay
  /\ len (Some "week"%string) = 7 * msPerDay
  /\ len None = 7 * msPerDay
  /\ len (Some ""%string) = 7 * msPerDay
  /\ len (Some "quarter"%string) = 7 * msPerDay
  /\ len (Some "month"%string)
     = daysInPreviousMonth (LocalTime 0 Sample.now) * msPerDay
  /\ 28 <= daysInPreviousMonth (LocalTime 0 Sample.now) <= 31.
Proof.
  split; [repeat split; vm_compute; discriminate |].
  apply (resolved_window_length 0 Sample.now "quarter"); vm_compute; discriminate.
Defined.

Local Close Scope Z_scope.

(** *** The daily average *)

(** [Math_round_div n d] is the integer nearest to [n / d], the upper one of
    two equally near. *)
Lemma Math_round_div_nearest n d :
  0 < d ->
  d * (2 * Math_round_div n d) <= 2 * n + d < d * (2 * Math_round_div n d) + 2 * d.
Proof.
  intros Hd. unfold Math_round_div.
  pose proof (Nat.div_mod_eq (2 * n + d) (2 * d)) as E.
  pose proof (Nat.mod_upper_bound (2 * n + d) (2 * d)) as U.
  nia.
Qed.

(** An unrecognised range gives the same five query results as ["week"]. *)
Lemma unrecognised_range_same_queries tza prisma shop (other : string) now start0 :
  other <> ""%string -> other <> "day"%string -> other <> "month"%string ->
  exists d w,
    loader tza (Client.healthy prisma) shop (Some other) now start0 = Returns d
    /\ loader tza (Client.healthy prisma) shop (Some "week"%string) now start0
       = Returns w
    /\ errors d = errors w /\ topPaths d = topPaths w
    /\ topReferrers d = topReferrers w
    /\ totalRedirects d = totalRedirects w
    /\ unfixedErrors d = unfixedErrors w
    /\ totalErrors d = totalErrors w
    /\ avgDaily d = Math_round_div (totalErrors d) (if String.eqb other "week" then 7 else 30).
Proof.
  intros He Hd Hm. do 2 eexists.
  split; [apply loader_healthy |]. split; [apply loader_healthy |].
  rewrite (rangeOf_other other He). change (rangeOf (Some "week"%string)) with "week"%string.
  assert (Es : startDateOf tza other now start0 = startDateOf tza "week" now start0).
  { unfold startDateOf.
    change (String.eqb "week" "day") with false.
    change (String.eqb "week" "month") with false.
    apply String.eqb_neq in Hd, Hm. rewrite Hd, Hm. reflexivity. }
  cbn [errors topPaths topReferrers totalRedirects unfixedErrors totalErrors avgDaily].
  rewrite Es. apply String.eqb_neq in Hd. rewrite Hd.
  repeat split.
Qed.

(** (C2) With four 404s in the last week, range ["week"] gives an average of
    round(4/7) = 1 a day, and the unsupported range ["quarter"], over the same
    seven-day window and the same four errors, gives round(4/30) = 0. *)
Theorem quarter_average_differs_from_week :
  exists q w,
    loader 0 Sample.fourErrors Sample.shop (Some "quarter") Sample.now Sample.now
    = Returns q
    /\ loader 0 Sample.fourErrors Sample.shop (Some "week") Sample.now Sample.now
       = Returns w
    /\ errors q = errors w
    /\ totalErrors q = 4 /\ totalErrors w = 4
    /\ avgDaily w = 1 /\ avgDaily q = 0.
Proof.
  do 2 eexists. split; [vm_compute; reflexivity |].
  split; [vm_compute; reflexivity |]. simpl. repeat split.
Qed.

(** (C6, as stated) On 2024-01-15, range ["month"], 46 errors in a window of
    31 days: the average is round(46/30) = 2, not round(46/31) = 1. *)
Lemma month_average_ignores_window_length :
  exists d,
    loader 0 Sample.fortySix Sample.shop (Some "month") Sample.now Sample.now
    = Returns d
    /\ windowDays (startDateOf 0 "month" Sample.now Sample.now) Sample.now = 31%Z
    /\ totalErrors d = 46
    /\ avgDaily d = 2
    /\ avgDaily d
       <> Math_round_div (totalErrors d)
            (Z.to_nat (windowDays (startDateOf 0 "month" Sample.now Sample.now)
                         Sample.now)).
Proof.
  eexists. split; [vm_compute; reflexivity |].
  split; [vm_compute; reflexivity |]. simpl. repeat split. vm_compute. discriminate.
Qed.

Lemma windowDays_whole d now :
  windowDays (now - d * msPerDay) now = d.
Proof.
  unfold windowDays. replace (now - (now - d * msPerDay))%Z with (d * msPerDay)%Z by ring.
  apply Z.div_mul. discriminate.
Qed.

(** (C6, amended) For the ranges ["day"], ["week"] and ["month"], and for
    any two clock readings, [avgDaily] is [totalErrors] divided by 1, 7 and 30
    and rounded to the nearest integer (halves upwards).  When both clock
    readings give the same instant, local time being at a fixed offset from
    UTC, the divisor for ["day"] and ["week"] is the length of the window in
    days; for ["month"] the divisor is the constant 30, while the window is
    as long as the previous calendar month, 28 to 31 days. *)
Theorem avgDaily_rounds_total_over_1_7_30 tza prisma shop now start0 :
  let average (range : string) (days : nat) :=
    exists d,
      loader tza (Client.healthy prisma) shop (Some range) now start0 = Returns d
      /\ avgDaily d = Math_round_div (totalErrors d) days
      /\ days * (2 * avgDaily d) <= 2 * totalErrors d + days
         < days * (2 * avgDaily d) + 2 * days in
  average "day"%string 1 /\ average "week"%string 7 /\ average "month"%string 30
  /\ (start0 = now ->
      windowDays (startDateOf tza "day" now start0) now = 1%Z
      /\ windowDays (startDateOf tza "week" now start0) now = 7%Z
      /\ windowDays (startDateOf tza "month" now start0) now
         = daysInPreviousMonth (LocalTime tza now)
      /\ (28 <= daysInPreviousMonth (LocalTime tza now) <= 31)%Z).
Proof.
  intros average.
  assert (Ha : forall range days, 0 < days ->
             days = (if String.eqb range "day" then 1
                     else if String.eqb range "week" then 7 else 30) ->
             range <> ""%string -> average range days).
  { intros range days Hpos Hdays Hne. unfold average. eexists.
    split; [apply loader_healthy |]. cbn [avgDaily totalErrors].
    rewrite (rangeOf_other range Hne), <- Hdays.
    split; [reflexivity |]. apply Math_round_div_nearest, Hpos. }
  split; [apply Ha; [lia | reflexivity | discriminate] |].
  split; [apply Ha; [lia | reflexivity | discriminate] |].
  split; [apply Ha; [lia | reflexivity | discriminate] |].
  intros ->.
  rewrite startDateOf_day, startDateOf_month, startDateOf_default by discriminate.
  rewrite !windowDays_whole. repeat split; apply daysInPreviousMonth_range.
Qed.

(** Forty-six errors in a month read on 2024-01-15: the average is
    round(46/30) = 2 over a window of 31 days. *)
Lemma avgDaily_of_fortySix :
  exists d,
    loader 0 (Client.healthy Sample.fortySix) Sample.shop (Some "month")
      Sample.now Sample.now = Returns d
    /\ avgDaily d = Math_round_div (totalErrors d) 30
    /\ windowDays (startDateOf 0 "month" Sample.now Sample.now) Sample.now
       = daysInPreviousMonth (LocalTime 0 Sample.now).
Proof.
  destruct (avgDaily_rounds_total_over_1_7_30 0 Sample.fortySix Sample.shop
              Sample.now Sample.now)
    as (_ & _ & (d & Hd & Havg & _) & Hwin).
  destruct (Hwin eq_refl) as (_ & _ & Hmonth & _).
  exists d. split; [exact Hd |]. split; [exact Havg | exact Hmonth].
Defined.

(** *** Top paths and top referrers *)

(** (X22) The top paths and the top referrers are the groups, by path and by
    referer, of the 404 events of the shop the two queries select (from
    [startDate] on, which for an event not later than [now] means in the
    window), each group with the number of its events, in strictly descending
    order of the key, cut after the first 5 and 3 groups: a key that is left
    out sorts below all the keys that are kept, however many events it has.
    So the lists never have more than 5 and 3 entries. *)
Theorem top_groups_by_key_descending_truncated
    tza prisma shop rangeParam now start0 :
  let startDate := startDateOf tza (rangeOf rangeParam) now start0 in
  let rows := Client.notFoundError prisma in
  let selected row :=
    String.eqb (NotFoundError.shopDomain row) shop
    && (startDate <=? NotFoundError.timestamp row)%Z in
  (forall row, (NotFoundError.timestamp row <= now)%Z ->
     selected row
     = String.eqb (NotFoundError.shopDomain row) shop
       && inWindow startDate now (NotFoundError.timestamp row))
  /\ exists d,
    loader tza (Client.healthy prisma) shop rangeParam now start0 = Returns d
    /\ length (topPaths d) <= 5
    /\ length (topReferrers d) <= 3
    /\ StronglySorted (comes_before text_leb desc) (topPaths d)
    /\ StronglySorted
         (comes_before (nullable_leb (Client.nullsLargest prisma)) desc)
         (topReferrers d)
    /\ (forall g, In g (topPaths d) ->
          _count g
          = count (fun row => selected row
                              && text_eqb (key g) (NotFoundError.path row)) rows
          /\ 1 <= _count g)
    /\ (forall g, In g (topReferrers d) ->
          _count g
          = count (fun row => selected row
                              && nullable_eqb (key g) (NotFoundError.referer row)) rows
          /\ 1 <= _count g)
    /\ (forall row, In row rows -> selected row = true ->
          In (NotFoundError.path row) (map key (topPaths d))
          \/ (length (topPaths d) = 5
              /\ forall g, In g (topPaths d) ->
                   text_leb (NotFoundError.path row) (key g) = true
                   /\ key g <> NotFoundError.path row))
    /\ (forall row, In row rows -> selected row = true ->
          In (NotFoundError.referer row) (map key (topReferrers d))
          \/ (length (topReferrers d) = 3
              /\ forall g, In g (topReferrers d) ->
                   nullable_leb (Client.nullsLargest prisma)
                     (NotFoundError.referer row) (key g) = true
                   /\ key g <> NotFoundError.referer row)).
Proof.
  intros startDate rows selected.
  split.
  { intros row Hrow. unfold selected.
    rewrite (lower_bound_is_window startDate now) by exact Hrow. reflexivity. }
  eexists. split; [apply loader_healthy |].
  cbn [topPaths topReferrers].
  fold startDate. unfold topPathsInPeriod, topReferrersInPeriod.
  change (Client.notFoundError (Client.healthy prisma)) with rows.
  repeat apply conj.
  - apply groupBy_length.
  - apply groupBy_length.
  - apply groupBy_sorted.
    + apply text_eqb_eq.
    + apply String.leb_total.
    + apply text_leb_trans.
  - apply groupBy_sorted.
    + apply nullable_eqb_eq.
    + apply nullable_leb_total.
    + apply nullable_leb_trans.
  - intros g Hg. apply (groupBy_count _ _ text_eqb_eq) in Hg. exact Hg.
  - intros g Hg. apply (groupBy_count _ _ nullable_eqb_eq) in Hg. exact Hg.
  - intros row Hin Hsel.
    apply (groupBy_keys_take text_eqb text_leb text_eqb_eq String.leb_total
             text_leb_trans NotFoundError.path selected desc 5 rows row Hin Hsel).
  - intros row Hin Hsel.
    apply (groupBy_keys_take nullable_eqb _ nullable_eqb_eq
             (nullable_leb_total _) (nullable_leb_trans _)
             NotFoundError.referer selected desc 3 rows row Hin Hsel).
Qed.

(** Three errors in the last day on the paths ["/a"], ["/b"], ["/a"]: three
    buckets adding up to 3, and the top paths hold ["/a"] twice, ["/b"] once. *)
Example three_errors_in_a_day :
  exists d,
    loader 0 (Client.mk [Sample.event "/a" None (Sample.now - 30) false;
                         Sample.event "/b" None (Sample.now - 20) false;
                         Sample.event "/a" None (Sample.now - 10) false]
                [] [] false Sample.noFailure)
      Sample.shop (Some "day") Sample.now Sample.now = Returns d
    /\ length (errors d) = 3 /\ totalErrors d = 3
    /\ topPaths d = [mkGroup "/b" 1; mkGroup "/a" 2].
Proof.
  eexists. split; [vm_compute; reflexivity |]. simpl. repeat split.
Qed.

(** The most frequent path is left out when five other paths sort after it. *)
Example top_paths_not_by_count :
  exists d,
    loader 0 Sample.frequentFirst Sample.shop (Some "day") Sample.now Sample.now
    = Returns d
    /\ topPaths d = [mkGroup "/f" 1; mkGroup "/e" 1; mkGroup "/d" 1;
                     mkGroup "/c" 1; mkGroup "/b" 1]
    /\ count (fun row => String.eqb (NotFoundError.path row) "/a")
         (Client.notFoundError Sample.frequentFirst) = 3.
Proof.
  eexists. split; [vm_compute; reflexivity |]. simpl. split; reflexivity.
Qed.

(** The top paths of [Sample.frequentFirst]: the list is full, and ["/a"],
    with its three events, sorts below every path kept. *)
Lemma top_groups_of_frequentFirst :
  exists d,
    loader 0 (Client.healthy Sample.frequentFirst) Sample.shop (Some "day")
      Sample.now Sample.now = Returns d
    /\ length (topPaths d) = 5
    /\ forall g, In g (topPaths d) -> text_leb "/a" (key g) = true /\ key g <> "/a".
Proof.
  destruct (top_groups_by_key_descending_truncated 0 Sample.frequentFirst
              Sample.shop (Some "day") Sample.now Sample.now)
    as (_ & d & Hd & _ & _ & _ & _ & _ & _ & Hpaths & _).
  exists d. split; [exact Hd |].
  destruct (Hpaths (Sample.event "/a" None (Sample.now - 1) false)) as [Hin | Hfull].
  - simpl. left. reflexivity.
  - vm_compute. reflexivity.
  - exfalso. vm_compute in Hd. injection Hd as <-. simpl in Hin.
    repeat (destruct Hin as [Hin | Hin]; [discriminate Hin |]). exact Hin.
  - exact Hfull.
Defined.

(** (C5) The top paths and the top referrers are not taken over the window:
    their queries have no upper bound.  With one 404 on ["/a"] in the window
    and two recorded just after [now], on ["/a"] and ["/zz"], the top paths
    are ["/zz"] with 1 and ["/a"] with 2, and the top referrers count three
    events, where grouping the events of the window gives ["/a"] with 1 and
    one event without referer. *)
Theorem late_rows_in_top_groups :
  let startDate := startDateOf 0 "week" Sample.now Sample.now in
  let events := eventsInWindow Cases.lateAndCurrent Sample.shop startDate Sample.now in
  events = [Sample.event "/a" None (Sample.now - 1000) false]
  /\ groupBy text_eqb text_leb NotFoundError.path (fun _ => true) desc (Some 5) events
     = [mkGroup "/a" 1]
  /\ groupBy nullable_eqb (nullable_leb false) NotFoundError.referer
       (fun _ => true) desc (Some 3) events
     = [mkGroup None 1]
  /\ exists d,
       loader 0 Cases.lateAndCurrent Sample.shop (Some "week") Sample.now Sample.now
       = Returns d
       /\ topPaths d = [mkGroup "/zz" 1; mkGroup "/a" 2]
       /\ topReferrers d = [mkGroup (Some "https://late.example/") 1; mkGroup None 2].
Proof.
  repeat split; try (vm_compute; reflexivity).
  eexists. split; [vm_compute; reflexivity |]. split; reflexivity.
Qed.

(** *** Failing queries *)

(** [Promise.all] of five queries, each failing or not: either none fails and
    all five values are there, or the promise is rejected with the error of a
    failing query, the earliest one. *)
Lemma all5_settles {A B C D E}
    (f1 f2 f3 f4 f5 : option (nat * Error)) (a : A) (b : B) (c : C) (d : D) (e : E) :
  let p {T} (f : option (nat * Error)) (v : T) :=
    match f with Some (at_, err) => Rejected at_ err | None => Fulfilled v end in
  (f1 = None /\ f2 = None /\ f3 = None /\ f4 = None /\ f5 = None
   /\ all5 (p f1 a) (p f2 b) (p f3 c) (p f4 d) (p f5 e)
      = Fulfilled (a, (b, (c, (d, e)))))
  \/ exists at_ err,
       all5 (p f1 a) (p f2 b) (p f3 c) (p f4 d) (p f5 e) = Rejected at_ err
       /\ In (Some (at_, err)) [f1; f2; f3; f4; f5]
       /\ forall at' err', In (Some (at', err')) [f1; f2; f3; f4; f5] -> at_ <= at'.
Proof.
  intros p. unfold all5, all2, p.
  destruct f1 as [[t1 e1] |], f2 as [[t2 e2] |], f3 as [[t3 e3] |],
           f4 as [[t4 e4] |], f5 as [[t5 e5] |];
    repeat match goal with
           | |- context [(?x <? ?y)%nat] => destruct (Nat.ltb_spec x y)
           end;
    try (left; repeat split; reflexivity);
    right; do 2 eexists;
    (split; [reflexivity |]); (split; [simpl; tauto |]);
    intros at' err' Hin; simpl in Hin;
    repeat (destruct Hin as [Hin | Hin];
            [first [discriminate Hin | injection Hin as <- <-; lia] |]);
    destruct Hin.
Qed.

(** The two outcomes of the loader. *)
Lemma loader_outcome tza prisma shop rangeParam now start0 :
  ((forall q, Client.failure prisma q = None)
   /\ exists d,
        loader tza prisma shop rangeParam now start0 = Returns d
        /\ loader tza (Client.healthy prisma) shop rangeParam now start0 = Returns d)
  \/ (exists q at_ e,
        Client.failure prisma q = Some (at_, e)
        /\ loader tza prisma shop rangeParam now start0 = Throws e
        /\ forall q' at' e',
             Client.failure prisma q' = Some (at', e') -> at_ <= at').
Proof.
  set (startDate := startDateOf tza (rangeOf rangeParam) now start0).
  destruct (all5_settles
              (Client.failure prisma Client.errorsQuery)
              (Client.failure prisma Client.topPathsQuery)
              (Client.failure prisma Client.totalRedirectsQuery)
              (Client.failure prisma Client.unfixedErrorsQuery)
              (Client.failure prisma Client.topReferrersQuery)
              (errorsOverTime prisma shop startDate now)
              (topPathsInPeriod prisma shop startDate)
              (totalRedirectsInPeriod prisma shop startDate)
              (unfixedErrorsInPeriod prisma shop startDate)
              (topReferrersInPeriod prisma shop startDate))
    as [(H1 & H2 & H3 & H4 & H5 & Hall) | (at_ & e & Hall & Hin & Hmin)].
  - left. split; [intros []; assumption |].
    eexists. split; [| apply loader_healthy].
    unfold loader, Client.run. fold startDate. rewrite Hall. reflexivity.
  - right.
    assert (Hq : exists q, Client.failure prisma q = Some (at_, e)).
    { simpl in Hin.
      destruct Hin as [Hin | [Hin | [Hin | [Hin | [Hin | []]]]]]; eauto. }
    destruct Hq as [q Hq]. exists q, at_, e.
    split; [exact Hq |]. split.
    + unfold loader, Client.run. fold startDate. rewrite Hall. reflexivity.
    + intros q' at' e' Hq'. apply (Hmin at' e'). rewrite <- Hq'.
      destruct q'; simpl; tauto.
Qed.

(** A single failing query: its error is the one the loader throws. *)
Lemma loader_throws_the_only_failure tza prisma shop rangeParam now start0 q at_ e :
  Client.failure prisma q = Some (at_, e) ->
  (forall q', q' <> q -> Client.failure prisma q' = None) ->
  loader tza prisma shop rangeParam now start0 = Throws e.
Proof.
  intros Hq Hothers.
  destruct (loader_outcome tza prisma shop rangeParam now start0)
    as [[Hnone _] | (q' & at' & e' & Hq' & Hthrow & _)].
  - rewrite Hnone in Hq. discriminate.
  - assert (q' = q).
    { destruct q, q'; try reflexivity;
        rewrite Hothers in Hq' by discriminate; discriminate. }
    subst q'. rewrite Hq in Hq'. injection Hq' as <- <-. exact Hthrow.
Qed.

(** (C9) The loader either returns the complete data, which happens exactly
    when none of the five queries fails, or throws the error of a failing
    query, the first one to fail, and returns nothing; when one query alone
    fails, the error thrown is that query's. *)
Theorem loader_complete_or_throws tza prisma shop rangeParam now start0 :
  (((forall q, Client.failure prisma q = None)
    /\ exists d,
         loader tza prisma shop rangeParam now start0 = Returns d
         /\ loader tza (Client.healthy prisma) shop rangeParam now start0
            = Returns d)
   \/ (exists q at_ e,
         Client.failure prisma q = Some (at_, e)
         /\ loader tza prisma shop rangeParam now start0 = Throws e
         /\ forall q' at' e',
              Client.failure prisma q' = Some (at', e') -> at_ <= at'))
  /\ (forall q at_ e,
        Client.failure prisma q = Some (at_, e) ->
        (forall q', q' <> q -> Client.failure prisma q' = None) ->
        loader tza prisma shop rangeParam now start0 = Throws e).
Proof.
  split; [apply loader_outcome |].
  intros q at_ e Hq Hothers.
  exact (loader_throws_the_only_failure tza prisma shop rangeParam now start0
           q at_ e Hq Hothers).
Qed.

Lemma loader_throws_when_paths_query_fails :
  (Client.failure Sample.pathsQueryDown Client.topPathsQuery = Some (3, "P1001")
   /\ forall q', q' <> Client.topPathsQuery ->
                 Client.failure Sample.pathsQueryDown q' = None)
  /\ loader 0 Sample.pathsQueryDown Sample.shop (Some "week") Sample.now Sample.now
     = Throws "P1001".
Proof.
  assert (Hq : Client.failure Sample.pathsQueryDown Client.topPathsQuery
               = Some (3, "P1001")) by reflexivity.
  assert (Hothers : forall q', q' <> Client.topPathsQuery ->
                      Client.failure Sample.pathsQueryDown q' = None).
  { intros [] Hne; try reflexivity. elim Hne. reflexivity. }
  split; [split; assumption |].
  exact (proj2 (loader_complete_or_throws 0 Sample.pathsQueryDown Sample.shop
                  (Some "week") Sample.now Sample.now)
           Client.topPathsQuery 3 "P1001" Hq Hothers).
Defined.

End AnalyticsFacts.

(** ** The theme loader *)
Section IndexFacts.
Import Index.

Lemma lookup_map {A B} (f : A -> B) (l : list A) i :
  map f l !! i = f <$> l !! i.
Proof.
  revert i. induction l as [| a l IH]; intros [| i]; simpl; auto.
Qed.

Lemma statusMap_snoc l status :
  statusMap (l ++ [status])
  = <[ThemeStatus.themeId status := ThemeStatus.isActive status]> (statusMap l).
Proof. unfold statusMap. rewrite fold_left_app. reflexivity. Qed.

(** The map holds, for each theme id, the flag of the last row with that id. *)
Lemma statusMap_lookup l id :
  statusMap l !! id
  = ThemeStatus.isActive
      <$> last (List.filter (fun s => String.eqb (ThemeStatus.themeId s) id) l).
Proof.
  induction l as [| status l IH] using rev_ind.
  - reflexivity.
  - rewrite statusMap_snoc, List.filter_app. simpl.
    destruct (String.eqb_spec (ThemeStatus.themeId status) id) as [E | E].
    + rewrite E, lookup_insert_eq, last_snoc. reflexivity.
    + rewrite lookup_insert_ne by assumption. rewrite app_nil_r. exact IH.
Qed.

Lemma withStatus_isActive m theme id :
  theme !! "id" = Some (Str id) ->
  withStatus m theme !! "isActive" = Some (Bool (default false (m !! id))).
Proof.
  intros Hid. unfold withStatus. rewrite lookup_insert_eq, Hid. reflexivity.
Qed.

(** (C8) Every theme of the platform's list is in the merged list, at the
    same place, with [isActive] set to the flag stored for the shop under the
    theme's id (the last such row, should there be several), and to [false]
    when no row is stored for it. *)
Theorem theme_isActive_from_stored_status
    prisma shop nodes EXTENSION_ID EXTENSION_FILE_NAME i theme id :
  nodes !! i = Some theme ->
  theme !! "id" = Some (Str id) ->
  let rows :=
    List.filter (fun s => String.eqb (ThemeStatus.themeId s) id)
      (findMany prisma shop) in
  exists merged,
    themes (loader prisma shop nodes EXTENSION_ID EXTENSION_FILE_NAME) !! i
    = Some merged
    /\ merged !! "isActive"
       = Some (Bool match last rows with
                    | Some status => ThemeStatus.isActive status
                    | None => false
                    end)
    /\ (rows = [] -> merged !! "isActive" = Some (Bool false)).
Proof.
  intros Hi Hid rows. simpl. rewrite lookup_map, Hi. simpl.
  eexists. split; [reflexivity |].
  rewrite (withStatus_isActive _ _ id Hid), statusMap_lookup. fold rows.
  split.
  - destruct (last rows); reflexivity.
  - intros ->. reflexivity.
Qed.

Lemma theme_without_status_is_inactive :
  (Sample.themeNodes !! 1 = Some (node "gid://shopify/Theme/2" "Craft" "unpublished")
   /\ node "gid://shopify/Theme/2" "Craft" "unpublished" !! "id"
      = Some (Str "gid://shopify/Theme/2"))
  /\ exists merged,
       themes (loader Sample.oneStatus Sample.shop Sample.themeNodes None None) !! 1
       = Some merged
       /\ merged !! "isActive" = Some (Bool false).
Proof.
  assert (H1 : Sample.themeNodes !! 1
               = Some (node "gid://shopify/Theme/2" "Craft" "unpublished"))
    by reflexivity.
  assert (H2 : node "gid://shopify/Theme/2" "Craft" "unpublished" !! "id"
               = Some (Str "gid://shopify/Theme/2")) by (vm_compute; reflexivity).
  split; [split; assumption |].
  destruct (theme_isActive_from_stored_status Sample.oneStatus Sample.shop
              Sample.themeNodes None None 1 _ _ H1 H2) as (merged & Hm & _ & Hnone).
  exists merged. split; [exact Hm |]. apply Hnone. vm_compute. reflexivity.
Defined.

(** No stored status at all: both themes are there, both inactive. *)
Example two_themes_no_status :
  map (fun m => m !! "isActive")
    (themes (loader (Client.mk [] [] [] false Sample.noFailure) Sample.shop
               Sample.themeNodes None None))
  = [Some (Bool false); Some (Bool false)].
Proof. vm_compute. reflexivity. Qed.

(** (C10) The merged list has the length and the order of the platform's
    list; each merged theme has an [isActive] flag and otherwise exactly the
    properties of the theme it comes from, unchanged. *)
Theorem theme_merge_only_adds_isActive
    prisma shop nodes EXTENSION_ID EXTENSION_FILE_NAME :
  let merged := themes (loader prisma shop nodes EXTENSION_ID EXTENSION_FILE_NAME) in
  length merged = length nodes
  /\ forall i theme, nodes !! i = Some theme ->
       exists m,
         merged !! i = Some m
         /\ (exists b, m !! "isActive" = Some (Bool b))
         /\ (forall field, field <> "isActive" -> m !! field = theme !! field)
         /\ delete "isActive" m = delete "isActive" theme.
Proof.
  simpl. split; [apply length_map |].
  intros i theme Hi. rewrite lookup_map, Hi. simpl.
  eexists. split; [reflexivity |]. unfold withStatus. repeat split.
  - eexists. apply lookup_insert_eq.
  - intros field Hf. apply lookup_insert_ne. congruence.
  - apply delete_insert_eq.
Qed.

Lemma sample_themes_keep_their_fields :
  exists m,
    themes (loader Sample.oneStatus Sample.shop Sample.themeNodes None None) !! 0
    = Some m
    /\ m !! "id" = Some (Str "gid://shopify/Theme/1")
    /\ m !! "name" = Some (Str "Dawn")
    /\ m !! "role" = Some (Str "main").
Proof.
  destruct (theme_merge_only_adds_isActive Sample.oneStatus Sample.shop
              Sample.themeNodes None None) as [_ H].
  destruct (H 0 (node "gid://shopify/Theme/1" "Dawn" "main") eq_refl)
    as (m & Hm & _ & Hfields & _).
  exists m. split; [exact Hm |].
  rewrite !Hfields by discriminate. repeat split; vm_compute; reflexivity.
Defined.

End IndexFacts.

(** ** More on the analytics loader *)
Section LoaderCoverage.
Import JSDate Prisma Promise Analytics.

Lemma filter_absorb {A} (w s : A -> bool) (rows : list A) :
  (forall r, w r = true -> s r = true) ->
  List.filter w (List.filter s rows) = List.filter w rows.
Proof.
  intros H. induction rows as [| r rows IH]; simpl; [reflexivity |].
  destruct (s r) eqn:Es; simpl.
  - destruct (w r); rewrite IH; reflexivity.
  - destruct (w r) eqn:Ew; [| exact IH]. rewrite (H r Ew) in Es. discriminate.
Qed.

Lemma groupBy_prefilter {R K} eqb leb (by_ : R -> K) w s o take rows :
  (forall r, w r = true -> s r = true) ->
  groupBy eqb leb by_ w o take (List.filter s rows) = groupBy eqb leb by_ w o take rows.
Proof. intros H. unfold groupBy. rewrite (filter_absorb w s rows H). reflexivity. Qed.

Lemma count_prefilter {A} (w s : A -> bool) (rows : list A) :
  (forall r, w r = true -> s r = true) ->
  count w (List.filter s rows) = count w rows.
Proof. intros H. unfold count. rewrite (filter_absorb w s rows H). reflexivity. Qed.

Lemma count_mono {A} (p q : A -> bool) (rows : list A) :
  (forall r, p r = true -> q r = true) -> count p rows <= count q rows.
Proof.
  intros H. unfold count. induction rows as [| r rows IH]; simpl; [lia |].
  destruct (p r) eqn:Ep.
  - rewrite (H r Ep). simpl. lia.
  - destruct (q r); simpl; lia.
Qed.

(** (X1) The rows of other shops never reach the result: dropping them from
    both tables beforehand leaves the loader's outcome unchanged, whatever
    the range, the clock and the failing queries. *)
Theorem loader_ignores_other_shops tza prisma shop rangeParam now start0 :
  let own :=
    Client.mk
      (List.filter (fun row => String.eqb (NotFoundError.shopDomain row) shop)
         (Client.notFoundError prisma))
      (List.filter (fun row => String.eqb (Redirect.shopDomain row) shop)
         (Client.redirect prisma))
      (Client.themeStatus prisma) (Client.nullsLargest prisma)
      (Client.failure prisma) in
  loader tza own shop rangeParam now start0
  = loader tza prisma shop rangeParam now start0.
Proof.
  intros own.
  assert (Hand : forall a b : bool, a && b = true -> a = true).
  { intros [] []; simpl; congruence. }
  unfold loader, Client.run, errorsOverTime, topPathsInPeriod,
    totalRedirectsInPeriod, unfixedErrorsInPeriod, topReferrersInPeriod.
  cbn [own Client.notFoundError Client.redirect Client.nullsLargest Client.failure].
  rewrite !groupBy_prefilter by (intros r; apply Hand).
  rewrite !count_prefilter by (intros r; apply Hand).
  reflexivity.
Qed.

Lemma StronglySorted_weaken {A} (P Q : A -> A -> Prop) (l : list A) :
  (forall a b, P a b -> Q a b) -> StronglySorted P l -> StronglySorted Q l.
Proof.
  intros H. induction 1 as [| a l Hs IH Hall]; constructor; [assumption |].
  eapply List.Forall_impl; [| exact Hall]. intros b. apply H.
Qed.

(** (X2) The error series has one bucket for every instant at which the shop
    has a 404 in the window and no other bucket: the instants strictly
    increase, each bucket counts the events of the window at its instant, at
    least one, and [totalErrors] is the number of events in the window. *)
Theorem error_series_one_bucket_per_instant tza prisma shop rangeParam now start0 :
  let startDate := startDateOf tza (rangeOf rangeParam) now start0 in
  let events := eventsInWindow prisma shop startDate now in
  exists d,
    loader tza (Client.healthy prisma) shop rangeParam now start0 = Returns d
    /\ StronglySorted (fun a b => (key a < key b)%Z) (errors d)
    /\ (forall g, In g (errors d) ->
          _count g
          = count (fun e => (key g =? NotFoundError.timestamp e)%Z) events
          /\ 1 <= _count g)
    /\ (forall e, In e events ->
          In (NotFoundError.timestamp e) (map key (errors d)))
    /\ totalErrors d = length events.
Proof.
  intros startDate events.
  eexists. split; [apply loader_healthy |].
  cbn [errors totalErrors]. fold startDate.
  repeat apply conj.
  - eapply StronglySorted_weaken; [| apply errorsOverTime_ascending].
    intros a b [Hle Hne]. simpl in Hle. apply Z.leb_le in Hle. lia.
  - intros g Hg. unfold errorsOverTime in Hg.
    apply (groupBy_count _ _ Z.eqb_eq) in Hg.
    unfold events, eventsInWindow. rewrite count_filter. exact Hg.
  - intros e He. unfold events, eventsInWindow in He.
    apply List.filter_In in He. destruct He as [Hin Hw].
    unfold errorsOverTime.
    exact (groupBy_keys_all Z.eqb Z.leb Z.eqb_eq NotFoundError.timestamp _ asc _ e
             Hin Hw).
  - rewrite reduce_counts. apply errorsOverTime_total.
Qed.

Lemma leb_lower startDate startDate' t :
  (startDate' <= startDate)%Z ->
  (startDate <=? t)%Z = true -> (startDate' <=? t)%Z = true.
Proof. intros H H'. apply Z.leb_le. apply Z.leb_le in H'. lia. Qed.

Lemma andb_mono (a b b' : bool) :
  (b = true -> b' = true) -> a && b = true -> a && b' = true.
Proof. destruct a, b, b'; simpl; intuition congruence. Qed.

(** The three counts can only grow when the start date moves back. *)
Lemma counts_grow_with_window prisma shop startDate startDate' now :
  (startDate' <= startDate)%Z ->
  total (errorsOverTime prisma shop startDate now)
  <= total (errorsOverTime prisma shop startDate' now)
  /\ unfixedErrorsInPeriod prisma shop startDate
     <= unfixedErrorsInPeriod prisma shop startDate'
  /\ totalRedirectsInPeriod prisma shop startDate
     <= totalRedirectsInPeriod prisma shop startDate'.
Proof.
  intros Hle. repeat apply conj.
  - unfold errorsOverTime. rewrite !groupBy_total by apply Z.eqb_eq.
    apply count_mono. intros r. apply andb_mono. intros H.
    apply andb_prop in H. destruct H as [H1 H2].
    rewrite (leb_lower _ _ _ Hle H1), H2. reflexivity.
  - apply count_mono. intros r. apply andb_mono, andb_mono, leb_lower, Hle.
  - apply count_mono. intros r. apply andb_mono, leb_lower, Hle.
Qed.

(** (X3) With the same clock reading, a wider range never shows smaller
    totals: the error total, the unfixed errors and the redirects for
    ["day"] are at most those for ["week"], which are at most those for
    ["month"]. *)
Theorem wider_range_counts_no_less tza prisma shop now :
  exists day week month,
    loader tza (Client.healthy prisma) shop (Some "day") now now = Returns day
    /\ loader tza (Client.healthy prisma) shop (Some "week") now now = Returns week
    /\ loader tza (Client.healthy prisma) shop (Some "month") now now = Returns month
    /\ totalErrors day <= totalErrors week <= totalErrors month
    /\ unfixedErrors day <= unfixedErrors week <= unfixedErrors month
    /\ totalRedirects day <= totalRedirects week <= totalRedirects month.
Proof.
  do 3 eexists.
  split; [apply loader_healthy |]. split; [apply loader_healthy |].
  split; [apply loader_healthy |].
  cbn [totalErrors unfixedErrors totalRedirects].
  change (rangeOf (Some "day")) with "day".
  change (rangeOf (Some "week")) with "week".
  change (rangeOf (Some "month")) with "month".
  rewrite !reduce_counts.
  rewrite startDateOf_day, startDateOf_month, startDateOf_default by discriminate.
  pose proof (daysInPreviousMonth_range (LocalTime tza now)) as Hm.
  assert (H1 : (now - 7 * msPerDay <= now - 1 * msPerDay)%Z)
    by (unfold msPerDay; lia).
  assert (H2 : (now - daysInPreviousMonth (LocalTime tza now) * msPerDay
                <= now - 7 * msPerDay)%Z) by (unfold msPerDay; lia).
  destruct (counts_grow_with_window prisma shop _ _ now H1) as (A1 & A2 & A3).
  destruct (counts_grow_with_window prisma shop _ _ now H2) as (B1 & B2 & B3).
  simpl. lia.
Qed.

Lemma count_split {A} (p : A -> bool) (l : list A) :
  length l = count p l + count (fun a => negb (p a)) l.
Proof.
  unfold count. induction l as [| a l IH]; simpl; [reflexivity |].
  destruct (p a); simpl; lia.
Qed.

(** (X4) When the store holds no 404 later than [now], every event of the
    window is either unfixed or redirected: [totalErrors] is [unfixedErrors]
    plus the number of redirected events in the window. *)
Theorem total_is_unfixed_plus_redirected tza prisma shop rangeParam now start0 :
  (forall row, In row (Client.notFoundError prisma) ->
               (NotFoundError.timestamp row <= now)%Z) ->
  let startDate := startDateOf tza (rangeOf rangeParam) now start0 in
  exists d,
    loader tza (Client.healthy prisma) shop rangeParam now start0 = Returns d
    /\ totalErrors d
       = unfixedErrors d
         + count NotFoundError.redirected (eventsInWindow prisma shop startDate now).
Proof.
  intros Hlate startDate.
  eexists. split; [apply loader_healthy |].
  cbn [totalErrors unfixedErrors]. fold startDate.
  rewrite reduce_counts, errorsOverTime_total. simpl.
  rewrite (count_split NotFoundError.redirected), Nat.add_comm. f_equal.
  unfold unfixedErrorsInPeriod, eventsInWindow. rewrite count_filter.
  apply count_ext. intros row Hin.
  rewrite (lower_bound_is_window startDate now) by auto.
  destruct (String.eqb _ shop), (NotFoundError.redirected row), (inWindow _ _ _);
    reflexivity.
Qed.

Lemma total_is_unfixed_plus_redirected_sameDay :
  (forall row, In row (Client.notFoundError Cases.sameDay) ->
               (NotFoundError.timestamp row <= Sample.now)%Z)
  /\ exists d,
       loader 0 (Client.healthy Cases.sameDay) Sample.shop (Some "week")
         Sample.now Sample.now = Returns d
       /\ totalErrors d
          = unfixedErrors d
            + count NotFoundError.redirected
                (eventsInWindow Cases.sameDay Sample.shop
                   (startDateOf 0 (rangeOf (Some "week")) Sample.now Sample.now)
                   Sample.now).
Proof.
  assert (H : forall row, In row (Client.notFoundError Cases.sameDay) ->
                (NotFoundError.timestamp row <= Sample.now)%Z).
  { intros row Hin. simpl in Hin.
    destruct Hin as [<- | [<- | [<- | []]]]; vm_compute; discriminate. }
  split; [exact H |].
  exact (total_is_unfixed_plus_redirected 0 Cases.sameDay Sample.shop
           (Some "week") Sample.now Sample.now H).
Defined.

Lemma filter_all {A} (l : list A) : List.filter (fun _ => true) l = l.
Proof. induction l as [| a l IH]; simpl; [| rewrite IH]; reflexivity. Qed.

Lemma groupBy_of_selected {R K} eqb leb (by_ : R -> K) w o take rows :
  groupBy eqb leb by_ w o take rows
  = groupBy eqb leb by_ (fun _ => true) o take (List.filter w rows).
Proof. unfold groupBy. rewrite filter_all. reflexivity. Qed.

(** (X5) When no 404 and no redirect rule of the store is later than [now],
    all the metrics are taken over the window: the top paths and the top
    referrers are the groups of the events in the window, the unfixed errors
    are the unfixed events of the window, and the redirects are the rules of
    the shop created in the window. *)
Theorem metrics_over_the_window_without_late_rows
    tza prisma shop rangeParam now start0 :
  (forall row, In row (Client.notFoundError prisma) ->
               (NotFoundError.timestamp row <= now)%Z) ->
  (forall row, In row (Client.redirect prisma) ->
               (Redirect.createdAt row <= now)%Z) ->
  let startDate := startDateOf tza (rangeOf rangeParam) now start0 in
  let events := eventsInWindow prisma shop startDate now in
  exists d,
    loader tza (Client.healthy prisma) shop rangeParam now start0 = Returns d
    /\ totalErrors d = length events
    /\ topPaths d
       = groupBy text_eqb text_leb NotFoundError.path (fun _ => true) desc (Some 5)
           events
    /\ topReferrers d
       = groupBy nullable_eqb (nullable_leb (Client.nullsLargest prisma))
           NotFoundError.referer (fun _ => true) desc (Some 3) events
    /\ unfixedErrors d
       = count (fun row => negb (NotFoundError.redirected row)) events
    /\ totalRedirects d
       = count (fun row => String.eqb (Redirect.shopDomain row) shop
                           && inWindow startDate now (Redirect.createdAt row))
           (Client.redirect prisma).
Proof.
  intros Hev Hred startDate events.
  destruct (queries_share_window_without_late_rows prisma shop startDate now
              Hev Hred) as (Hp & Hr & Hu & Ht).
  eexists. split; [apply loader_healthy |].
  cbn [totalErrors topPaths topReferrers unfixedErrors totalRedirects].
  fold startDate. repeat apply conj.
  - rewrite reduce_counts. apply errorsOverTime_total.
  - rewrite Hp. apply groupBy_of_selected.
  - rewrite Hr. apply groupBy_of_selected.
  - rewrite Hu. apply count_ext. intros row _.
    destruct (NotFoundError.redirected row); reflexivity.
  - exact Ht.
Qed.

Lemma metrics_over_the_window_fourErrors :
  ((forall row, In row (Client.notFoundError Sample.fourErrors) ->
                (NotFoundError.timestamp row <= Sample.now)%Z)
   /\ (forall row, In row (Client.redirect Sample.fourErrors) ->
                   (Redirect.createdAt row <= Sample.now)%Z))
  /\ exists d,
       loader 0 (Client.healthy Sample.fourErrors) Sample.shop (Some "day")
         Sample.now Sample.now = Returns d
       /\ totalErrors d = 3 /\ unfixedErrors d = 3.
Proof.
  assert (Hev : forall row, In row (Client.notFoundError Sample.fourErrors) ->
                  (NotFoundError.timestamp row <= Sample.now)%Z).
  { intros row Hin. simpl in Hin.
    destruct Hin as [<- | [<- | [<- | [<- | []]]]]; vm_compute; discriminate. }
  assert (Hred : forall row, In row (Client.redirect Sample.fourErrors) ->
                   (Redirect.createdAt row <= Sample.now)%Z).
  { intros row []. }
  split; [split; assumption |].
  destruct (metrics_over_the_window_without_late_rows 0 Sample.fourErrors
              Sample.shop (Some "day") Sample.now Sample.now Hev Hred)
    as (d & Hd & Ht & _ & _ & Hu & _).
  exists d. split; [exact Hd |]. rewrite Ht, Hu. split; vm_compute; reflexivity.
Defined.

(** (X6) Requests whose ranges are neither ["day"] nor ["month"] (a missing
    or empty parameter, ["week"], any other text) run the same five queries
    over the same seven-day window: their results differ at most in [range]
    and [avgDaily]. *)
Theorem default_ranges_share_query_results
    tza prisma shop (param param' : option string) now start0 :
  rangeOf param <> "day" -> rangeOf param <> "month" ->
  rangeOf param' <> "day" -> rangeOf param' <> "month" ->
  exists d d',
    loader tza (Client.healthy prisma) shop param now start0 = Returns d
    /\ loader tza (Client.healthy prisma) shop param' now start0 = Returns d'
    /\ errors d = errors d' /\ topPaths d = topPaths d'
    /\ topReferrers d = topReferrers d'
    /\ totalRedirects d = totalRedirects d'
    /\ unfixedErrors d = unfixedErrors d'
    /\ totalErrors d = totalErrors d'.
Proof.
  intros Hd Hm Hd' Hm'. do 2 eexists.
  split; [apply loader_healthy |]. split; [apply loader_healthy |].
  cbn [errors topPaths topReferrers totalRedirects unfixedErrors totalErrors].
  assert (Es : startDateOf tza (rangeOf param) now start0
               = startDateOf tza (rangeOf param') now start0).
  { unfold startDateOf. apply String.eqb_neq in Hd, Hm, Hd', Hm'.
    rewrite Hd, Hm, Hd', Hm'. reflexivity. }
  rewrite Es. repeat split.
Qed.

Lemma default_ranges_share_query_results_quarter :
  (rangeOf (Some "quarter") <> "day" /\ rangeOf (Some "quarter") <> "month"
   /\ rangeOf None <> "day" /\ rangeOf None <> "month")
  /\ exists d d',
       loader 0 (Client.healthy Sample.fourErrors) Sample.shop (Some "quarter")
         Sample.now Sample.now = Returns d
       /\ loader 0 (Client.healthy Sample.fourErrors) Sample.shop None
            Sample.now Sample.now = Returns d'
       /\ errors d = errors d' /\ topPaths d = topPaths d'
       /\ topReferrers d = topReferrers d'
       /\ totalRedirects d = totalRedirects d'
       /\ unfixedErrors d = unfixedErrors d'
       /\ totalErrors d = totalErrors d'.
Proof.
  split; [repeat split; vm_compute; discriminate |].
  apply (default_ranges_share_query_results 0 Sample.fourErrors Sample.shop
           (Some "quarter") None Sample.now Sample.now);
    vm_compute; discriminate.
Defined.

Lemma filter_none {A} (w : A -> bool) (rows : list A) :
  (forall r, In r rows -> w r = false) -> List.filter w rows = [].
Proof.
  intros H. induction rows as [| r rows IH]; simpl; [reflexivity |].
  rewrite (H r) by (left; reflexivity). apply IH. intros r' Hr'. apply H. right. exact Hr'.
Qed.

(** (X7) For a shop without any 404 and without any redirect rule in the
    store, whatever the other shops have, the loader returns empty lists and
    zeros, the daily average included. *)
Theorem shop_without_rows_gets_zeros tza prisma shop rangeParam now start0 :
  (forall row, In row (Client.notFoundError prisma) ->
               NotFoundError.shopDomain row <> shop) ->
  (forall row, In row (Client.redirect prisma) ->
               Redirect.shopDomain row <> shop) ->
  loader tza (Client.healthy prisma) shop rangeParam now start0
  = Returns (mkLoaderData [] [] (rangeOf rangeParam) 0 0 0 0 []).
Proof.
  intros Hev Hred.
  assert (He : forall (rest : NotFoundError.t -> bool),
             List.filter
               (fun row => String.eqb (NotFoundError.shopDomain row) shop && rest row)
               (Client.notFoundError prisma) = []).
  { intros rest. apply filter_none. intros row Hin.
    apply Hev in Hin. apply String.eqb_neq in Hin. rewrite Hin. reflexivity. }
  assert (Hr : forall (rest : Redirect.t -> bool),
             List.filter
               (fun row => String.eqb (Redirect.shopDomain row) shop && rest row)
               (Client.redirect prisma) = []).
  { intros rest. apply filter_none. intros row Hin.
    apply Hred in Hin. apply String.eqb_neq in Hin. rewrite Hin. reflexivity. }
  rewrite loader_healthy.
  unfold errorsOverTime, topPathsInPeriod, totalRedirectsInPeriod,
    unfixedErrorsInPeriod, topReferrersInPeriod, groupBy, count.
  rewrite !He, Hr. cbn [map grouped fold_left ordered firstn length].
  destruct (String.eqb (rangeOf rangeParam) "day");
    [| destruct (String.eqb (rangeOf rangeParam) "week")]; reflexivity.
Qed.

Lemma shop_without_rows_gets_zeros_newcomer :
  ((forall row, In row (Client.notFoundError Sample.fourErrors) ->
                NotFoundError.shopDomain row <> "new.myshopify.com")
   /\ (forall row, In row (Client.redirect Sample.fourErrors) ->
                   Redirect.shopDomain row <> "new.myshopify.com"))
  /\ loader 0 (Client.healthy Sample.fourErrors) "new.myshopify.com" (Some "month")
       Sample.now Sample.now
     = Returns (mkLoaderData [] [] "month" 0 0 0 0 []).
Proof.
  assert (Hev : forall row, In row (Client.notFoundError Sample.fourErrors) ->
                  NotFoundError.shopDomain row <> "new.myshopify.com").
  { intros row Hin. simpl in Hin.
    destruct Hin as [<- | [<- | [<- | [<- | []]]]]; vm_compute; discriminate. }
  assert (Hred : forall row, In row (Client.redirect Sample.fourErrors) ->
                   Redirect.shopDomain row <> "new.myshopify.com").
  { intros row []. }
  split; [split; assumption |].
  exact (shop_without_rows_gets_zeros 0 Sample.fourErrors "new.myshopify.com"
           (Some "month") Sample.now Sample.now Hev Hred).
Defined.

Lemma Math_round_div_le n d : 0 < d -> Math_round_div n d <= n.
Proof.
  intros Hd. unfold Math_round_div.
  apply Nat.lt_succ_r, Nat.Div0.div_lt_upper_bound. nia.
Qed.

Lemma Math_round_div_zero n d : 0 < d -> Math_round_div n d = 0 <-> 2 * n < d.
Proof.
  intros Hd. unfold Math_round_div. rewrite Nat.div_small_iff by lia. lia.
Qed.

(** (X8) The daily average never exceeds the error total, whatever the
    range parameter; for ["day"] it is the total itself, for ["week"] it is 0
    exactly up to 3 errors, and for ["month"] exactly up to 14. *)
Theorem avgDaily_bounds tza prisma shop rangeParam now start0 :
  exists d day week month,
    loader tza (Client.healthy prisma) shop rangeParam now start0 = Returns d
    /\ loader tza (Client.healthy prisma) shop (Some "day") now start0 = Returns day
    /\ loader tza (Client.healthy prisma) shop (Some "week") now start0 = Returns week
    /\ loader tza (Client.healthy prisma) shop (Some "month") now start0
       = Returns month
    /\ avgDaily d <= totalErrors d
    /\ avgDaily day = totalErrors day
    /\ (avgDaily week = 0 <-> totalErrors week <= 3)
    /\ (avgDaily month = 0 <-> totalErrors month <= 14).
Proof.
  do 4 eexists.
  split; [apply loader_healthy |]. split; [apply loader_healthy |].
  split; [apply loader_healthy |]. split; [apply loader_healthy |].
  cbn [avgDaily totalErrors].
  change (rangeOf (Some "day")) with "day".
  change (rangeOf (Some "week")) with "week".
  change (rangeOf (Some "month")) with "month".
  change (String.eqb "day" "day") with true.
  change (String.eqb "week" "day") with false.
  change (String.eqb "week" "week") with true.
  change (String.eqb "month" "day") with false.
  change (String.eqb "month" "week") with false.
  cbv iota.
  split; [| split; [| split]].
  - apply Math_round_div_le.
    destruct (String.eqb _ "day"); [| destruct (String.eqb _ "week")]; lia.
  - unfold Math_round_div.
    match goal with |- (2 * ?n + 1) / (2 * 1) = ?n =>
      replace (2 * n + 1) with (1 + n * 2) by lia;
      rewrite Nat.div_add by lia; reflexivity
    end.
  - rewrite Math_round_div_zero by lia. lia.
  - rewrite Math_round_div_zero by lia. lia.
Qed.

(** (X9) Local time being at a fixed offset [tza] from UTC (no change of
    daylight-saving time between the dates involved), the start date is
    worked out from two clock readings: for ["day"] and ["week"] it is the
    second reading moved by the difference between the days of the month of
    the two readings, less 1 or 7 days.  When both readings fall on the same
    day of the month, that is exactly 1 or 7 days before the second
    reading. *)
Theorem startDate_from_two_clock_readings tza now start0 :
  startDateOf tza "day" now start0
  = (start0 + (getDate tza now - getDate tza start0 - 1) * msPerDay)%Z
  /\ startDateOf tza "week" now start0
     = (start0 + (getDate tza now - getDate tza start0 - 7) * msPerDay)%Z
  /\ (getDate tza now = getDate tza start0 ->
      startDateOf tza "day" now start0 = (start0 - 1 * msPerDay)%Z
      /\ startDateOf tza "week" now start0 = (start0 - 7 * msPerDay)%Z).
Proof.
  assert (H : forall k,
             setDate tza start0 (getDate tza now - k)
             = (start0 + (getDate tza now - getDate tza start0 - k) * msPerDay)%Z).
  { intros k.
    replace (getDate tza now - k)%Z
      with (getDate tza start0 + (getDate tza now - getDate tza start0 - k))%Z by lia.
    apply setDate_shift. }
  unfold startDateOf.
  change (String.eqb "day" "day") with true.
  change (String.eqb "week" "day") with false.
  change (String.eqb "week" "month") with false.
  cbv iota. rewrite !H.
  split; [reflexivity |]. split; [reflexivity |].
  intros E. rewrite E. split; f_equal; ring.
Qed.

(** The two readings on either side of midnight at the end of January 2024:
    day 31 less 1 is set on a date in February, which gives the first of
    March, a start date a month after [now]. *)
Example startDate_across_midnight :
  startDateOf 0 "day" 1706745599999 1706745600000 = 1709251200000%Z
  /\ (1706745599999 < 1709251200000)%Z.
Proof. split; vm_compute; reflexivity. Qed.

Lemma startDate_same_day_of_month :
  getDate 0 Sample.now = getDate 0 (Sample.now + 5)%Z
  /\ startDateOf 0 "day" Sample.now (Sample.now + 5)
     = (Sample.now + 5 - 1 * msPerDay)%Z
  /\ startDateOf 0 "week" Sample.now (Sample.now + 5)
     = (Sample.now + 5 - 7 * msPerDay)%Z.
Proof.
  assert (E : getDate 0 Sample.now = getDate 0 (Sample.now + 5)%Z)
    by (vm_compute; reflexivity).
  split; [exact E |].
  exact (proj2 (proj2 (startDate_from_two_clock_readings 0 Sample.now
                         (Sample.now + 5)%Z)) E).
Defined.

Lemma total_firstn_le {K} n (gs : list (Group K)) : total (firstn n gs) <= total gs.
Proof.
  unfold total. revert n. induction gs as [| g gs IH]; intros [| n]; simpl; try lia.
  specialize (IH n). lia.
Qed.

(** Every group stands for a row that is there. *)
Lemma grouped_key_in {K} (eqb : K -> K -> bool) ks g :
  (forall a b, eqb a b = true <-> a = b) ->
  In g (grouped eqb ks) -> In (key g) ks.
Proof.
  intros Heq Hg.
  destruct (groups_of_grouped eqb eqb Heq ks) as (_ & Hc & _).
  destruct (Hc g Hg) as [Ho Hp]. rewrite Ho in Hp. unfold occurrences in Hp.
  destruct (List.filter (eqb (key g)) ks) as [| x l] eqn:F; [simpl in Hp; lia |].
  assert (Hx : In x (List.filter (eqb (key g)) ks)) by (rewrite F; left; reflexivity).
  apply List.filter_In in Hx. destruct Hx as [Hx Hk].
  apply Heq in Hk. rewrite Hk. exact Hx.
Qed.

(** With [take n], the counts add up to at most the number of selected rows,
    and to exactly that number when the selected rows have their keys in a
    list of at most [n] keys. *)
Lemma groupBy_take_total {R K} (eqb leb : K -> K -> bool) (by_ : R -> K) w o n rows :
  (forall a b, eqb a b = true <-> a = b) ->
  total (groupBy eqb leb by_ w o (Some n) rows) <= count w rows
  /\ forall keys,
       length keys <= n ->
       (forall r, In r rows -> w r = true -> In (by_ r) keys) ->
       total (groupBy eqb leb by_ w o (Some n) rows) = count w rows.
Proof.
  intros Heq.
  pose proof (groupBy_total eqb leb by_ w o rows) as Ht.
  unfold groupBy in *.
  set (G := ordered leb o (grouped eqb (map by_ (List.filter w rows)))) in *.
  split.
  - rewrite <- Ht. apply total_firstn_le.
  - intros keys Hlen Hkeys. rewrite <- Ht. f_equal. apply firstn_all2.
    rewrite <- (length_map key G).
    etransitivity; [| exact Hlen].
    apply List.NoDup_incl_length; [apply (NoDup_keys_ordered eqb leb Heq) |].
    intros k Hk. apply in_map_iff in Hk. destruct Hk as (g & <- & Hg).
    apply (Permutation_in _ (Permutation_sym (ordered_perm leb o _))) in Hg.
    apply (grouped_key_in eqb _ _ Heq) in Hg.
    apply in_map_iff in Hg. destruct Hg as (r & <- & Hr).
    apply List.filter_In in Hr. destruct Hr as [Hr Hw]. auto.
Qed.

(** (X10) The counts of the top paths add up to at most the number of events
    the query selects, and to exactly that number when these events have no
    more than five different paths; likewise for the top referrers and
    three. *)
Theorem top_groups_account_for_events tza prisma shop rangeParam now start0 :
  let startDate := startDateOf tza (rangeOf rangeParam) now start0 in
  let rows := Client.notFoundError prisma in
  let selected row :=
    String.eqb (NotFoundError.shopDomain row) shop
    && (startDate <=? NotFoundError.timestamp row)%Z in
  exists d,
    loader tza (Client.healthy prisma) shop rangeParam now start0 = Returns d
    /\ sum_list (map _count (topPaths d)) <= count selected rows
    /\ sum_list (map _count (topReferrers d)) <= count selected rows
    /\ (forall paths, length paths <= 5 ->
          (forall row, In row rows -> selected row = true ->
                       In (NotFoundError.path row) paths) ->
          sum_list (map _count (topPaths d)) = count selected rows)
    /\ (forall referers, length referers <= 3 ->
          (forall row, In row rows -> selected row = true ->
                       In (NotFoundError.referer row) referers) ->
          sum_list (map _count (topReferrers d)) = count selected rows).
Proof.
  intros startDate rows selected.
  eexists. split; [apply loader_healthy |].
  cbn [topPaths topReferrers]. fold startDate.
  unfold topPathsInPeriod, topReferrersInPeriod.
  change (Client.notFoundError (Client.healthy prisma)) with rows.
  destruct (groupBy_take_total text_eqb text_leb NotFoundError.path selected desc 5
              rows text_eqb_eq) as [Hp Hp'].
  destruct (groupBy_take_total nullable_eqb
              (nullable_leb (Client.nullsLargest (Client.healthy prisma)))
              NotFoundError.referer selected desc 3 rows nullable_eqb_eq)
    as [Hr Hr'].
  split; [exact Hp |]. split; [exact Hr |]. split; [exact Hp' | exact Hr'].
Qed.

Lemma top_groups_account_for_fourErrors :
  exists d,
    loader 0 (Client.healthy Sample.fourErrors) Sample.shop (Some "week")
      Sample.now Sample.now = Returns d
    /\ sum_list (map _count (topPaths d)) = 4
    /\ sum_list (map _count (topReferrers d)) = 4.
Proof.
  destruct (top_groups_account_for_events 0 Sample.fourErrors Sample.shop
              (Some "week") Sample.now Sample.now)
    as (d & Hd & _ & _ & Hp & Hr).
  exists d. split; [exact Hd |]. split.
  - rewrite (Hp ["/a"; "/b"; "/c"]); [vm_compute; reflexivity | simpl; lia |].
    intros row Hin _. simpl in Hin.
    destruct Hin as [<- | [<- | [<- | [<- | []]]]]; simpl; tauto.
  - rewrite (Hr [None; Some "https://example.org/"]);
      [vm_compute; reflexivity | simpl; lia |].
    intros row Hin _. simpl in Hin.
    destruct Hin as [<- | [<- | [<- | [<- | []]]]]; simpl; tauto.
Defined.

End LoaderCoverage.

(** ** The analytics page *)
Section AnalyticsPageFacts.
Import JSDate Prisma Promise Analytics AnalyticsPage.

Lemma In_lookup {A} (x : A) (l : list A) : In x l -> exists i, l !! i = Some x.
Proof.
  intros H. apply list_elem_of_In in H. apply list_elem_of_lookup in H. exact H.
Qed.

Lemma sorted_NoDup {A} (P : A -> A -> Prop) (l : list A) :
  (forall a, ~ P a a) -> StronglySorted P l -> List.NoDup l.
Proof.
  intros Hirr. induction 1 as [| a l Hs IH Hall]; constructor; [| assumption].
  intros Hin. rewrite List.Forall_forall in Hall. exact (Hirr a (Hall a Hin)).
Qed.

Lemma sorted_map {A B} (f : A -> B) (P : B -> B -> Prop) (l : list A) :
  StronglySorted (fun a b => P (f a) (f b)) l -> StronglySorted P (map f l).
Proof.
  induction 1 as [| a l Hs IH Hall]; simpl; constructor; [assumption |].
  rewrite List.Forall_forall in *. intros b Hb.
  apply in_map_iff in Hb. destruct Hb as (x & <- & Hx). auto.
Qed.

Lemma NoDup_map_in {A B} (f : A -> B) (l : list A) :
  (forall x y, In x l -> In y l -> f x = f y -> x = y) ->
  List.NoDup l -> List.NoDup (map f l).
Proof.
  intros Hinj Hnd. induction Hnd as [| a l Hni Hnd IH]; simpl; constructor.
  - intros Hin. apply in_map_iff in Hin. destruct Hin as (y & E & Hy).
    apply Hinj in E; [| right; exact Hy | left; reflexivity]. subst y. auto.
  - apply IH. intros x y Hx Hy. apply Hinj; right; assumption.
Qed.

(** (X11) The line chart has one point for each bucket of the error series:
    as many labels as values, every value at least 1 (an instant without
    errors has no point), and the values add up to the total shown on the
    "Total 404s" card. *)
Theorem line_chart_points_match_series
    utza format tza prisma shop rangeParam now start0 :
  exists d points,
    loader tza (Client.healthy prisma) shop rangeParam now start0 = Returns d
    /\ datasets (lineChartData utza format (errors d))
       = [mkDataset "404 Errors" points]
    /\ length (labels (lineChartData utza format (errors d))) = length points
    /\ length points = length (errors d)
    /\ Forall (fun n => 1 <= n) points
    /\ sum_list points = totalErrors d.
Proof.
  do 2 eexists. split; [apply loader_healthy |].
  cbn [errors totalErrors lineChartData datasets labels].
  split; [reflexivity |].
  rewrite !length_map. split; [reflexivity |]. split; [reflexivity |].
  split.
  - apply List.Forall_forall. intros n Hn.
    apply in_map_iff in Hn. destruct Hn as (g & <- & Hg).
    unfold errorsOverTime in Hg.
    apply (groupBy_count _ _ Z.eqb_eq) in Hg. apply Hg.
  - rewrite reduce_counts. reflexivity.
Qed.

(** (X12) The line chart is drawn per instant, not per day: two 404s of the
    window at different instants of the same calendar day (in the user's
    time zone) give two points of the chart that carry the same label. *)
Theorem line_chart_repeats_the_label_of_a_day
    utza format tza prisma shop rangeParam now start0 e1 e2 :
  let startDate := startDateOf tza (rangeOf rangeParam) now start0 in
  let events := eventsInWindow prisma shop startDate now in
  let t1 := NotFoundError.timestamp e1 in
  let t2 := NotFoundError.timestamp e2 in
  In e1 events -> In e2 events -> t1 <> t2 ->
  YearFromTime (LocalTime utza t1) = YearFromTime (LocalTime utza t2) ->
  MonthFromTime (LocalTime utza t1) = MonthFromTime (LocalTime utza t2) ->
  DateFromTime (LocalTime utza t1) = DateFromTime (LocalTime utza t2) ->
  exists d i j text,
    loader tza (Client.healthy prisma) shop rangeParam now start0 = Returns d
    /\ i <> j
    /\ labels (lineChartData utza format (errors d)) !! i = Some text
    /\ labels (lineChartData utza format (errors d)) !! j = Some text.
Proof.
  intros startDate events t1 t2 H1 H2 Hne Hy Hm Hd.
  assert (Hkeys : forall e, In e events ->
            exists i g, errorsOverTime prisma shop startDate now !! i = Some g
                        /\ key g = NotFoundError.timestamp e).
  { intros e He. unfold events, eventsInWindow in He.
    apply List.filter_In in He. destruct He as [Hin Hw].
    pose proof (groupBy_keys_all Z.eqb Z.leb Z.eqb_eq NotFoundError.timestamp
                  (fun row => String.eqb (NotFoundError.shopDomain row) shop
                              && inWindow startDate now (NotFoundError.timestamp row))
                  asc _ e Hin Hw) as Hk.
    apply in_map_iff in Hk. destruct Hk as (g & Hg & Hgin).
    destruct (In_lookup g _ Hgin) as [i Hi]. exists i, g. split; assumption. }
  destruct (Hkeys e1 H1) as (i & g1 & Hi & Hk1).
  destruct (Hkeys e2 H2) as (j & g2 & Hj & Hk2).
  exists (mkLoaderData (errorsOverTime prisma shop startDate now)
            (topPathsInPeriod prisma shop startDate) (rangeOf rangeParam)
            (totalRedirectsInPeriod prisma shop startDate)
            (fold_left (fun sum error => sum + _count error)
               (errorsOverTime prisma shop startDate now) 0)
            (Math_round_div
               (fold_left (fun sum error => sum + _count error)
                  (errorsOverTime prisma shop startDate now) 0)
               (if String.eqb (rangeOf rangeParam) "day" then 1
                else if String.eqb (rangeOf rangeParam) "week" then 7 else 30))
            (unfixedErrorsInPeriod prisma shop startDate)
            (topReferrersInPeriod prisma shop startDate)),
    i, j, (toLocaleDateString utza format t1).
  split; [apply loader_healthy |].
  cbn [errors lineChartData labels].
  split.
  - intros E. subst j. rewrite Hi in Hj. injection Hj as <-.
    apply Hne. unfold t1, t2. rewrite <- Hk1, <- Hk2. reflexivity.
  - rewrite !lookup_map, Hi, Hj. simpl. rewrite Hk1, Hk2. split; [reflexivity |].
    unfold toLocaleDateString. fold t1 t2. rewrite Hy, Hm, Hd. reflexivity.
Qed.

Lemma line_chart_repeats_the_label_of_14_January :
  exists d i j,
    loader 0 (Client.healthy Cases.sameDay) Sample.shop (Some "week")
      Sample.now Sample.now = Returns d
    /\ i <> j
    /\ labels (lineChartData 0 Cases.isoDate (errors d)) !! i = Some "2024-1-14"
    /\ labels (lineChartData 0 Cases.isoDate (errors d)) !! j = Some "2024-1-14".
Proof.
  destruct (line_chart_repeats_the_label_of_a_day 0 Cases.isoDate 0 Cases.sameDay
              Sample.shop (Some "week") Sample.now Sample.now
              (Sample.event "/a" None (Sample.now - 97200000) false)
              (Sample.event "/a" None (Sample.now - 79200000) true))
    as (d & i & j & text & Hd & Hij & Hi & Hj).
  - vm_compute. tauto.
  - vm_compute. tauto.
  - vm_compute. discriminate.
  - vm_compute. reflexivity.
  - vm_compute. reflexivity.
  - vm_compute. reflexivity.
  - exists d, i, j. split; [exact Hd |]. split; [exact Hij |].
    assert (Ht : text = "2024-1-14").
    { vm_compute in Hd. injection Hd as <-.
      destruct i as [| [| i]]; vm_compute in Hi; congruence. }
    rewrite <- Ht. split; assumption.
Defined.

(** (X13) The bar chart has at most five bars, one value per label, every
    value at least 1; its labels are pairwise different paths and come in
    descending order of the path, whatever the values are. *)
Theorem bar_chart_bars tza prisma shop rangeParam now start0 :
  exists d values,
    loader tza (Client.healthy prisma) shop rangeParam now start0 = Returns d
    /\ datasets (barChartData (topPaths d)) = [mkDataset "Error Count" values]
    /\ length (labels (barChartData (topPaths d))) = length values
    /\ length values <= 5
    /\ Forall (fun n => 1 <= n) values
    /\ List.NoDup (labels (barChartData (topPaths d)))
    /\ StronglySorted (fun a b => text_leb b a = true /\ a <> b)
         (labels (barChartData (topPaths d))).
Proof.
  do 2 eexists. split; [apply loader_healthy |].
  cbn [topPaths barChartData datasets labels].
  split; [reflexivity |].
  rewrite !length_map. split; [reflexivity |].
  assert (Hs : StronglySorted (fun a b => text_leb b a = true /\ a <> b)
                 (map key (topPathsInPeriod prisma shop
                    (startDateOf tza (rangeOf rangeParam) now start0)))).
  { apply sorted_map.
    apply (groupBy_sorted text_eqb text_leb text_eqb_eq String.leb_total
             text_leb_trans NotFoundError.path _ desc (Some 5)). }
  repeat apply conj.
  - apply groupBy_length.
  - apply List.Forall_forall. intros n Hn.
    apply in_map_iff in Hn. destruct Hn as (g & <- & Hg).
    unfold topPathsInPeriod in Hg.
    apply (groupBy_count _ _ text_eqb_eq) in Hg. apply Hg.
  - eapply sorted_NoDup; [| exact Hs]. intros a [_ Ha]. apply Ha. reflexivity.
  - exact Hs.
Qed.

Lemma orElse_direct_inj (k1 k2 : option string) :
  k1 <> Some "" -> k1 <> Some "direct" ->
  k2 <> Some "" -> k2 <> Some "direct" ->
  orElse k1 "direct" = orElse k2 "direct" -> k1 = k2.
Proof.
  intros A1 B1 A2 B2.
  destruct k1 as [s1 |], k2 as [s2 |]; simpl; try reflexivity.
  - destruct (String.eqb_spec s1 ""); [congruence |].
    destruct (String.eqb_spec s2 ""); congruence.
  - destruct (String.eqb_spec s1 ""); congruence.
  - destruct (String.eqb_spec s2 ""); congruence.
Qed.

(** (X14) The "Top Sources" card has at most three boxes, one per top
    referrer with its count.  A box reads "Direct" exactly when the referer
    is null, empty or the text "Direct" itself.  Unless the empty string or
    the text "direct" is among the top referers, the React keys of the boxes
    are pairwise different. *)
Theorem top_sources_boxes tza prisma shop rangeParam now start0 :
  exists d,
    loader tza (Client.healthy prisma) shop rangeParam now start0 = Returns d
    /\ length (topSources (topReferrers d)) <= 3
    /\ map hits (topSources (topReferrers d)) = map _count (topReferrers d)
    /\ (forall i ref, topReferrers d !! i = Some ref ->
          exists box,
            topSources (topReferrers d) !! i = Some box
            /\ (sourceText box = "Direct"
                <-> key ref = None \/ key ref = Some ""
                    \/ key ref = Some "Direct"))
    /\ (~ In (Some "") (map key (topReferrers d)) ->
        ~ In (Some "direct") (map key (topReferrers d)) ->
        List.NoDup (map sourceKey (topSources (topReferrers d)))).
Proof.
  eexists. split; [apply loader_healthy |].
  cbn [topReferrers].
  set (refs := topReferrersInPeriod prisma shop
                 (startDateOf tza (rangeOf rangeParam) now start0)).
  split; [| split; [| split]].
  - unfold topSources. rewrite length_map. apply groupBy_length.
  - unfold topSources. rewrite map_map. reflexivity.
  - intros i ref Hi. unfold topSources. rewrite lookup_map, Hi. simpl.
    eexists. split; [reflexivity |]. simpl.
    destruct (key ref) as [s |]; simpl.
    + destruct (String.eqb_spec s "") as [-> | Hs].
      * split; auto.
      * split; [intros ->; auto |].
        intros [H | [H | H]]; congruence.
    + split; auto.
  - intros Hempty Hdirect. unfold topSources. rewrite map_map. simpl.
    rewrite <- (map_map key (fun k => orElse k "direct")).
    apply NoDup_map_in.
    + intros k1 k2 H1 H2. apply orElse_direct_inj; congruence.
    + eapply sorted_NoDup;
        [| apply sorted_map with (P := fun a b : option string =>
                                         nullable_leb (Client.nullsLargest prisma) b a = true
                                         /\ a <> b);
           apply (groupBy_sorted nullable_eqb _ nullable_eqb_eq
                    (nullable_leb_total _) (nullable_leb_trans _)
                    NotFoundError.referer _ desc (Some 3))].
      intros a [_ Ha]. apply Ha. reflexivity.
Qed.

(** A 404 without referer and one with an empty referer: two boxes that both
    read "Direct" under the same key. *)
Example two_direct_boxes :
  exists d,
    loader 0 (Client.mk [Sample.event "/a" None (Sample.now - 1) false;
                         Sample.event "/b" (Some "") (Sample.now - 2) false]
                [] [] false Sample.noFailure)
      Sample.shop (Some "day") Sample.now Sample.now = Returns d
    /\ topSources (topReferrers d)
       = [mkSource "direct" "Direct" 1; mkSource "direct" "Direct" 1].
Proof. eexists. split; vm_compute; reflexivity. Qed.

Lemma top_sources_boxes_fourErrors :
  exists d,
    loader 0 (Client.healthy Sample.fourErrors) Sample.shop (Some "week")
      Sample.now Sample.now = Returns d
    /\ List.NoDup (map sourceKey (topSources (topReferrers d))).
Proof.
  destruct (top_sources_boxes 0 Sample.fourErrors Sample.shop (Some "week")
              Sample.now Sample.now) as (d & Hd & _ & _ & _ & Hkeys).
  exists d. split; [exact Hd |].
  apply Hkeys; vm_compute in Hd; injection Hd as <-; simpl;
    intros [H | [H | []]]; discriminate H.
Defined.

(** (X21) The range the page starts with is the one the loader returns.  It
    is one of the three options of the select exactly when the request's
    parameter is missing, empty, or one of ["day"], ["week"] and ["month"];
    any other text is handed on as it is and matches no option. *)
Theorem selected_range_among_options tza prisma shop rangeParam now start0 :
  exists d,
    loader tza (Client.healthy prisma) shop rangeParam now start0 = Returns d
    /\ (In (range d) (map snd rangeOptions)
        <-> rangeParam = None \/ rangeParam = Some ""
            \/ rangeParam = Some "day" \/ rangeParam = Some "week"
            \/ rangeParam = Some "month")
    /\ (forall s, rangeParam = Some s -> s <> "" -> range d = s).
Proof.
  eexists. split; [apply loader_healthy |]. cbn [range]. split.
  - destruct rangeParam as [s |]; simpl.
    + destruct (String.eqb_spec s "") as [-> | Hs].
      * split; [tauto | intros _; tauto].
      * split.
        -- intros [<- | [<- | [<- | []]]]; tauto.
        -- intros [H | [H | [H | [H | H]]]]; try congruence;
             injection H as <-; tauto.
    + split; [tauto | intros _; tauto].
  - intros s -> Hs. simpl. apply String.eqb_neq in Hs. rewrite Hs. reflexivity.
Qed.

End AnalyticsPageFacts.

(** ** The themes page *)
Section IndexPageFacts.
Import Index IndexPage.

Lemma withStatus_other m theme field :
  field <> "isActive" -> withStatus m theme !! field = theme !! field.
Proof. intros H. unfold withStatus. apply lookup_insert_ne. congruence. Qed.

(** (X15) Every theme of the platform's list gets the row at its place in the
    table.  The row shows "Active" and a "Deactivate" button when the last
    status stored for the shop under the theme's id is active, "Inactive" and
    a "Configure" button otherwise, also when nothing is stored; either
    button opens the theme editor for that id in a new window. *)
Theorem rows_show_the_stored_status
    prisma shop nodes EXTENSION_ID EXTENSION_FILE_NAME i theme id :
  nodes !! i = Some theme ->
  theme !! "id" = Some (Str id) ->
  let d := loader prisma shop nodes EXTENSION_ID EXTENSION_FILE_NAME in
  let active :=
    match last (List.filter (fun s => String.eqb (ThemeStatus.themeId s) id)
                  (findMany prisma shop)) with
    | Some status => ThemeStatus.isActive status
    | None => false
    end in
  exists rows r,
    themesCard d = IndexTable (length nodes) rows
    /\ rows !! i = Some r
    /\ position r = i
    /\ IndexPage.id r = Some (Str id)
    /\ badgeText r = (if active then "Active" else "Inactive")
    /\ badgeTone r = (if active then "success" else "critical")
    /\ buttonText r = (if active then "Deactivate" else "Configure")
    /\ buttonTone r = (if active then "critical" else "success")
    /\ onClick r = window_open (getThemeEditorUrl d id) "_blank".
Proof.
  intros Hi Hid d active.
  assert (Hlen : length (themes d) = length nodes) by apply length_map.
  assert (Hpos : (0 <? length (themes d))%nat = true).
  { apply Nat.ltb_lt. rewrite Hlen. apply lookup_lt_Some in Hi. lia. }
  assert (Hact : truthy (withStatus (statusMap (findMany prisma shop)) theme
                           !! "isActive") = active).
  { rewrite (withStatus_isActive _ _ id Hid), statusMap_lookup. unfold active.
    destruct (last _); reflexivity. }
  do 2 eexists. split.
  { unfold themesCard. rewrite Hpos, Hlen. reflexivity. }
  split.
  { rewrite list_lookup_imap. simpl. rewrite lookup_map, Hi. reflexivity. }
  unfold row. cbn [position IndexPage.id badgeText badgeTone buttonText buttonTone onClick].
  rewrite Hact, withStatus_other, Hid by discriminate.
  repeat split.
Qed.

Lemma rows_show_the_stored_status_sameDay :
  (Sample.themeNodes !! 0 = Some (node "gid://shopify/Theme/1" "Dawn" "main")
   /\ node "gid://shopify/Theme/1" "Dawn" "main" !! "id"
      = Some (Str "gid://shopify/Theme/1"))
  /\ exists rows r,
       themesCard (loader Cases.sameDay Sample.shop Sample.themeNodes None None)
       = IndexTable 2 rows
       /\ rows !! 0 = Some r
       /\ badgeText r = "Active" /\ buttonText r = "Deactivate"
       /\ nameText r = "Dawn (Live)".
Proof.
  assert (H1 : Sample.themeNodes !! 0
               = Some (node "gid://shopify/Theme/1" "Dawn" "main")) by reflexivity.
  assert (H2 : node "gid://shopify/Theme/1" "Dawn" "main" !! "id"
               = Some (Str "gid://shopify/Theme/1")) by (vm_compute; reflexivity).
  split; [split; assumption |].
  destruct (rows_show_the_stored_status Cases.sameDay Sample.shop
              Sample.themeNodes None None 0 _ _ H1 H2)
    as (rows & r & Hcard & Hr & _ & _ & Hbadge & _ & Hbutton & _).
  exists rows, r. split; [exact Hcard |]. split; [exact Hr |].
  split; [exact Hbadge |]. split; [exact Hbutton |].
  vm_compute in Hcard. injection Hcard as <-.
  vm_compute in Hr. injection Hr as <-. vm_compute. reflexivity.
Defined.

Lemma string_length_append (a b : string) :
  String.length (a ++ b) = String.length a + String.length b.
Proof. induction a as [| c a IH]; simpl; [| rewrite IH]; reflexivity. Qed.

Lemma append_inv_head (p a b : string) : (p ++ a = p ++ b)%string -> a = b.
Proof.
  induction p as [| c p IH]; simpl; intros H; [exact H |].
  injection H as H. auto.
Qed.

Lemma append_inv_tail (s : string) : forall a b : string,
  (a ++ s = b ++ s)%string -> a = b.
Proof.
  induction a as [| x a IH]; intros [| y b] H.
  - reflexivity.
  - apply (f_equal String.length) in H.
    rewrite !string_length_append in H. simpl in H. lia.
  - apply (f_equal String.length) in H.
    rewrite !string_length_append in H. simpl in H. lia.
  - change (String x (a ++ s) = String y (b ++ s))%string in H.
    injection H as -> H. f_equal. auto.
Qed.

(** (X16) Different theme ids give different links to the theme editor:
    for the same shop and extension, the link determines the id. *)
Theorem editor_links_differ d (themeId themeId' : string) :
  themeId <> themeId' ->
  getThemeEditorUrl d themeId <> getThemeEditorUrl d themeId'.
Proof.
  unfold getThemeEditorUrl. intros Hne H. apply Hne.
  apply (append_inv_head "https://") in H.
  apply append_inv_head in H.
  apply (append_inv_head "/admin/themes/") in H.
  apply append_inv_tail in H. exact H.
Qed.

Lemma editor_links_differ_sample :
  "gid://shopify/Theme/1" <> "gid://shopify/Theme/2"
  /\ getThemeEditorUrl
       (loader Sample.oneStatus Sample.shop Sample.themeNodes None None)
       "gid://shopify/Theme/1"
     <> getThemeEditorUrl
          (loader Sample.oneStatus Sample.shop Sample.themeNodes None None)
          "gid://shopify/Theme/2".
Proof.
  assert (H : "gid://shopify/Theme/1" <> "gid://shopify/Theme/2") by discriminate.
  split; [exact H |].
  exact (editor_links_differ _ _ _ H).
Defined.

(** (X17) The "Your Themes" card follows the platform's list alone, whatever
    is stored: its heading gives the number of themes of that list; without
    themes it is the hint with the link to the shop's themes; otherwise it is
    a table with one row per theme, numbered in the order of the list and
    carrying the theme's id. *)
Theorem themes_card_follows_platform_list
    prisma shop nodes EXTENSION_ID EXTENSION_FILE_NAME :
  let d := loader prisma shop nodes EXTENSION_ID EXTENSION_FILE_NAME in
  heading d = ("Your Themes (" ++ pretty (length nodes) ++ ")")%string
  /\ (nodes = [] ->
      themesCard d = NoThemes ("https://" ++ shop ++ "/admin/themes")%string)
  /\ (nodes <> [] ->
      exists rows,
        themesCard d = IndexTable (length nodes) rows
        /\ length rows = length nodes
        /\ forall i r, rows !! i = Some r ->
             position r = i
             /\ exists theme, nodes !! i = Some theme
                              /\ IndexPage.id r = theme !! "id").
Proof.
  intros d.
  assert (Hlen : length (themes d) = length nodes) by apply length_map.
  split; [| split].
  - unfold heading. rewrite Hlen. reflexivity.
  - intros ->. reflexivity.
  - intros Hne. unfold themesCard. rewrite Hlen.
    destruct nodes as [| n nodes']; [contradiction |].
    change (0 <? length (n :: nodes'))%nat with true. cbv iota.
    eexists. split; [reflexivity |].
    split; [rewrite length_imap; exact Hlen |].
    intros i r Hr. rewrite list_lookup_imap in Hr.
    change (themes d)
      with (map (withStatus (statusMap (findMany prisma shop))) (n :: nodes')) in Hr.
    rewrite lookup_map in Hr.
    destruct ((n :: nodes') !! i) as [theme |] eqn:Hi; [| discriminate].
    simpl in Hr. injection Hr as <-. split; [reflexivity |].
    exists theme. split; [reflexivity |]. simpl. apply withStatus_other. discriminate.
Qed.

Lemma themes_card_of_sample :
  (Sample.themeNodes <> [])
  /\ exists rows,
       themesCard (loader Sample.oneStatus Sample.shop Sample.themeNodes None None)
       = IndexTable 2 rows
       /\ length rows = 2.
Proof.
  assert (H : Sample.themeNodes <> []) by discriminate.
  split; [exact H |].
  destruct (themes_card_follows_platform_list Sample.oneStatus Sample.shop
              Sample.themeNodes None None) as (_ & _ & Htable).
  destruct (Htable H) as (rows & Hcard & Hlen & _).
  exists rows. split; assumption.
Defined.

Lemma withStatus_overrides m theme v :
  withStatus m (<["isActive" := v]> theme) = withStatus m theme.
Proof.
  unfold withStatus. rewrite lookup_insert_ne by discriminate.
  apply insert_insert_eq.
Qed.

(** (X18) The stored status always wins: an [isActive] property that already
    comes with the themes is overwritten, so the result does not depend on
    it; in particular merging the merged themes once more changes nothing. *)
Theorem stored_status_overrides_incoming_flag
    prisma shop nodes EXTENSION_ID EXTENSION_FILE_NAME :
  (forall incoming : gmap string value -> value,
     themes (loader prisma shop
               (map (fun theme => <["isActive" := incoming theme]> theme) nodes)
               EXTENSION_ID EXTENSION_FILE_NAME)
     = themes (loader prisma shop nodes EXTENSION_ID EXTENSION_FILE_NAME))
  /\ themes (loader prisma shop
               (themes (loader prisma shop nodes EXTENSION_ID EXTENSION_FILE_NAME))
               EXTENSION_ID EXTENSION_FILE_NAME)
     = themes (loader prisma shop nodes EXTENSION_ID EXTENSION_FILE_NAME).
Proof.
  assert (H : forall incoming : gmap string value -> value,
            themes (loader prisma shop
                      (map (fun theme => <["isActive" := incoming theme]> theme) nodes)
                      EXTENSION_ID EXTENSION_FILE_NAME)
            = themes (loader prisma shop nodes EXTENSION_ID EXTENSION_FILE_NAME)).
  { intros incoming. simpl. rewrite map_map. apply map_ext.
    intros theme. apply withStatus_overrides. }
  split; [exact H |].
  simpl. rewrite map_map. apply map_ext. intros theme.
  unfold withStatus at 2. apply withStatus_overrides.
Qed.

(** (X19) The status rows of other shops play no part: removing them from the
    table beforehand gives the same loader data. *)
Theorem theme_merge_ignores_other_shops
    prisma shop nodes EXTENSION_ID EXTENSION_FILE_NAME :
  let own :=
    Client.mk (Client.notFoundError prisma) (Client.redirect prisma)
      (List.filter (fun status => String.eqb (ThemeStatus.shopDomain status) shop)
         (Client.themeStatus prisma))
      (Client.nullsLargest prisma) (Client.failure prisma) in
  loader own shop nodes EXTENSION_ID EXTENSION_FILE_NAME
  = loader prisma shop nodes EXTENSION_ID EXTENSION_FILE_NAME.
Proof.
  intros own. unfold loader, findMany. cbn [own Client.themeStatus].
  rewrite filter_absorb by auto. reflexivity.
Qed.

(** (X20) The extension id and file name handed to the page are never empty:
    an environment variable that is unset or empty gives way to the built-in
    name, any other value is used as it is. *)
Theorem extension_names_never_empty
    prisma shop nodes EXTENSION_ID EXTENSION_FILE_NAME :
  let d := loader prisma shop nodes EXTENSION_ID EXTENSION_FILE_NAME in
  extensionId d <> "" /\ extensionFileName d <> ""
  /\ (forall s, EXTENSION_ID = Some s -> s <> "" -> extensionId d = s)
  /\ (forall s, EXTENSION_FILE_NAME = Some s -> s <> "" -> extensionFileName d = s)
  /\ (EXTENSION_ID = None \/ EXTENSION_ID = Some "" ->
      extensionId d = "404-redirect")
  /\ (EXTENSION_FILE_NAME = None \/ EXTENSION_FILE_NAME = Some "" ->
      extensionFileName d = "seo-wizzard-extension").
Proof.
  assert (Hne : forall var dflt, dflt <> "" -> envOr var dflt <> "").
  { intros [s |] dflt H; simpl; [| exact H].
    destruct (String.eqb_spec s ""); auto. }
  simpl. split; [apply Hne; discriminate |]. split; [apply Hne; discriminate |].
  repeat apply conj.
  - intros s -> Hs. simpl. apply String.eqb_neq in Hs. rewrite Hs. reflexivity.
  - intros s -> Hs. simpl. apply String.eqb_neq in Hs. rewrite Hs. reflexivity.
  - intros [-> | ->]; reflexivity.
  - intros [-> | ->]; reflexivity.
Qed.

End IndexPageFacts.
